(** * Firefly Telegram assistant: the transaction-intent pipeline

    A shallow embedding of the reference store and sync engine
    ([firefly_sync.py]), the context builder ([context_loader.py]), the intent
    resolver ([intent_filter.py]) and the transaction submitter
    ([main.py], [final_prompt.py]), with the properties the specification
    states about them.

    Conventions.  A Python [str] is a Rocq [string] holding its UTF-8 bytes;
    the character classes used by [strip] and [lower] are defined on the
    ASCII range and leave every byte above 127 alone.  A table with an
    [INTEGER PRIMARY KEY] is a [gmap Z row]; the tag table, which has no
    natural key, is the list of its rows in insertion order.  SQLite [REAL]
    values are binary64 floats.  Functions of Python itself and of external
    libraries (the JSON decoder, [str] of a value, the sentence encoder, the
    cosine similarity, the chat completion endpoint) are parameters of the
    sections that use them. *)

From Stdlib Require Import ZArith QArith String Ascii List Bool Lia PrimFloat.
From Stdlib Require Import Permutation Sorted DecimalString DecimalZ.
From stdpp Require Import base option list gmap strings fin_maps.

Set Warnings "-register-all".
Open Scope string_scope.
Open Scope list_scope.
Open Scope Z_scope.

(** ** Python strings *)

Module PyStr.

(** The double quote and the line feed, which a string literal cannot hold. *)
Definition dq : string := String (ascii_of_nat 34) EmptyString.
Definition nl : string := String (ascii_of_nat 10) EmptyString.

(** [s.startswith(p)] *)
Fixpoint startswith (p s : string) : bool :=
  match p with
  | EmptyString => true
  | String a p' =>
      match s with
      | EmptyString => false
      | String b s' => Ascii.eqb a b && startswith p' s'
      end
  end.

(** [sub in s] for strings: [sub] starts at some position of [s]. *)
Fixpoint contains (sub s : string) : bool :=
  startswith sub s ||
  match s with
  | EmptyString => false
  | String _ s' => contains sub s'
  end.

(** [s.split(sep)] for a non-empty [sep]: a left-to-right scan for
    non-overlapping occurrences.  [skip] counts the characters of a matched
    separator still to be passed over, [cur] is the part being collected. *)
Fixpoint split_go (sep s : string) (skip : nat) (cur : string) : list string :=
  match s with
  | EmptyString => [cur]
  | String c s' =>
      match skip with
      | S k => split_go sep s' k cur
      | O =>
          if startswith sep s
          then cur :: split_go sep s' (Nat.pred (String.length sep)) EmptyString
          else split_go sep s' O (cur +:+ String c EmptyString)
      end
  end.

Definition split (sep s : string) : list string := split_go sep s O EmptyString.

(** [str.isspace] on the ASCII range: TAB, LF, VT, FF, CR, FS, GS, RS, US
    and the space. *)
Definition isspace (c : ascii) : bool :=
  let n := nat_of_ascii c in
  ((9 <=? n)%nat && (n <=? 13)%nat) || ((28 <=? n)%nat && (n <=? 32)%nat).

Fixpoint lstrip (s : string) : string :=
  match s with
  | EmptyString => EmptyString
  | String c s' => if isspace c then lstrip s' else s
  end.

Fixpoint rstrip (s : string) : string :=
  match s with
  | EmptyString => EmptyString
  | String c s' =>
      match rstrip s' with
      | EmptyString => if isspace c then EmptyString else String c EmptyString
      | r => String c r
      end
  end.

(** [s.strip()] *)
Definition strip (s : string) : string := rstrip (lstrip s).

Definition lower_char (c : ascii) : ascii :=
  let n := nat_of_ascii c in
  if ((65 <=? n)%nat && (n <=? 90)%nat) then ascii_of_nat (n + 32) else c.

(** [s.lower()] *)
Fixpoint lower (s : string) : string :=
  match s with
  | EmptyString => EmptyString
  | String c s' => String (lower_char c) (lower s')
  end.

(** Truth value of a string: non-empty. *)
Definition truthy (s : string) : bool :=
  match s with EmptyString => false | _ => true end.

(** [sep.join(parts)] *)
Definition join (sep : string) (parts : list string) : string :=
  String.concat sep parts.

(** [str(n)] for an integer. *)
Definition str_of_Z (n : Z) : string := NilEmpty.string_of_int (Z.to_int n).

(** [s.lstrip(ch)] and [s.rstrip(ch)] for a one-character set. *)
Fixpoint lstrip_char (ch : ascii) (s : string) : string :=
  match s with
  | EmptyString => EmptyString
  | String c s' => if Ascii.eqb c ch then lstrip_char ch s' else s
  end.

Fixpoint rstrip_char (ch : ascii) (s : string) : string :=
  match s with
  | EmptyString => EmptyString
  | String c s' =>
      match rstrip_char ch s' with
      | EmptyString => if Ascii.eqb c ch then EmptyString else String c EmptyString
      | r => String c r
      end
  end.

End PyStr.

(** ** JSON values as Python sees them *)

(** What [json.loads] builds: [None], [bool], [int], [str], [list] and
    [dict] (an insertion-ordered association list, one entry per key).
    Numbers with a fraction or an exponent, which decode to [float], are
    not represented. *)
Inductive json : Type :=
  | JNull
  | JBool (b : bool)
  | JInt (n : Z)
  | JStr (s : string)
  | JArr (items : list json)
  | JObj (members : list (string * json)).

Module Json.

(** [d.get(key)] on a dict. *)
Fixpoint obj_get (key : string) (members : list (string * json)) : option json :=
  match members with
  | [] => None
  | (k, v) :: rest => if String.eqb k key then Some v else obj_get key rest
  end.

(** [d.get(key, default)] *)
Definition get_default (key : string) (default : json) (members : list (string * json)) : json :=
  match obj_get key members with
  | Some v => v
  | None => default
  end.

(** [key in d] on a dict. *)
Definition has_key (key : string) (members : list (string * json)) : bool :=
  match obj_get key members with Some _ => true | None => false end.

(** Truth value of a decoded value. *)
Definition truthy (v : json) : bool :=
  match v with
  | JNull => false
  | JBool b => b
  | JInt n => negb (n =? 0)
  | JStr s => PyStr.truthy s
  | JArr items => match items with [] => false | _ => true end
  | JObj members => match members with [] => false | _ => true end
  end.

(** Hashable values: everything but lists and dicts. *)
Definition hashable (v : json) : bool :=
  match v with
  | JArr _ | JObj _ => false
  | _ => true
  end.

Definition num_of_bool (b : bool) : Z := if b then 1 else 0.

(** [a == b] on hashable values: strings by content, [None] only with
    itself, [bool] and [int] as numbers ([True == 1]). *)
Definition py_eq (a b : json) : bool :=
  match a, b with
  | JNull, JNull => true
  | JStr s, JStr t => String.eqb s t
  | JInt n, JInt m => n =? m
  | JBool x, JBool y => Bool.eqb x y
  | JBool x, JInt m => num_of_bool x =? m
  | JInt n, JBool y => n =? num_of_bool y
  | _, _ => false
  end.

(** [list(set(xs))] for hashable [xs]: one representative per class of
    equal values, the first one met.  CPython enumerates a set in hash
    order; the order chosen here is first occurrence, and no statement
    below depends on it. *)
Definition set_add (acc : list json) (x : json) : list json :=
  if existsb (py_eq x) acc then acc else acc ++ [x].

Definition list_of_set (xs : list json) : list json :=
  fold_left set_add xs [].

End Json.

(** ** Functions of Python and of the external libraries *)

Class Externals := {
  (** [str(x)] of a float *)
  float_str : PrimFloat.float -> string;
  (** [str(v)] of a list or a dict *)
  repr_compound : json -> string;
  (** [int(s)] of a string, [None] where it raises [ValueError] *)
  int_of_str : string -> option Z;
  (** [json.loads], [None] where it raises [JSONDecodeError] *)
  json_loads : string -> option json;
  (** the sentence encoder and the array it returns *)
  vector : Type;
  encode : string -> vector;
  tobytes : vector -> list Byte.byte;
  (** [np.frombuffer(b, dtype=np.float32)], [None] where it raises *)
  frombuffer : list Byte.byte -> option vector;
  (** [cosine_similarity([u], [v])[0][0]], [None] where it raises; a finite
      floating-point score is the rational it denotes *)
  cosine_similarity : vector -> vector -> option Q
}.

(** [str(v)] of a decoded value. *)
Definition py_str `{Externals} (v : json) : string :=
  match v with
  | JNull => "None"
  | JBool true => "True"
  | JBool false => "False"
  | JInt n => PyStr.str_of_Z n
  | JStr s => s
  | _ => repr_compound v
  end.

(** What a call does: it returns a value or an exception escapes it. *)
Inductive exn := AttributeError | TypeError | ValueError | KeyError | IndexError.

Inductive outcome (A : Type) : Type :=
  | Returned (a : A)
  | Raised (e : exn).
Arguments Returned {A} a.
Arguments Raised {A} e.

#[global] Instance outcome_ret : MRet outcome := fun A a => Returned a.

#[global] Instance outcome_bind : MBind outcome := fun A B k m =>
  match m with
  | Returned a => k a
  | Raised e => Raised e
  end.

(** Stable sort, as [list.sort]: [insert_by] puts [x] in front of the first
    element it may precede, so equal elements keep their order. *)
Fixpoint insert_by {A} (leb : A -> A -> bool) (x : A) (l : list A) : list A :=
  match l with
  | [] => [x]
  | y :: l' => if leb x y then x :: l else y :: insert_by leb x l'
  end.

Definition sort_by {A} (leb : A -> A -> bool) (l : list A) : list A :=
  fold_right (insert_by leb) [] l.

(** ** The reference store (tables of [init_db]) *)

(** A SQL value of a [TEXT] column: [None] is [NULL]. *)
Definition text : Type := option string.

Definition text_truthy (t : text) : bool :=
  match t with Some s => PyStr.truthy s | None => false end.

(** [t or ""] *)
Definition text_or_empty (t : text) : string :=
  match t with Some s => if PyStr.truthy s then s else "" | None => "" end.

(** An f-string field holding a [TEXT] value: [None] prints as [None]. *)
Definition fmt_text (t : text) : string :=
  match t with Some s => s | None => "None" end.

Record account_row := {
  acc_name : text; acc_type : text; acc_currency : text; acc_last_updated : text }.

Record category_row := { cat_name : text; cat_last_updated : text }.

Record bill_row := {
  bill_name : text; bill_amount_min : PrimFloat.float;
  bill_amount_max : PrimFloat.float; bill_last_updated : text }.

Record transaction_row := {
  t_description : text; t_amount : PrimFloat.float; t_created_at : text;
  t_source_id : option Z; t_destination_id : option Z; t_category_id : option Z;
  t_type : text; t_source_name : text; t_destination_name : text;
  t_category_name : text; t_last_updated : text }.

(** A row of [transactions_tags]; its autoincrement id is its position. *)
Record tag_row := { tag_transaction_id : Z; tag_name : string }.

Record store := {
  accounts : gmap Z account_row;
  categories : gmap Z category_row;
  bills : gmap Z bill_row;
  transactions : gmap Z transaction_row;
  transactions_tags : list tag_row;
  transaction_embeddings : gmap Z (list Byte.byte) }.

Definition empty_store : store :=
  {| accounts := ∅; categories := ∅; bills := ∅; transactions := ∅;
     transactions_tags := []; transaction_embeddings := ∅ |}.

(** Number of rows in all tables. *)
Definition row_count (st : store) : nat :=
  (size (accounts st) + size (categories st) + size (bills st)
   + size (transactions st) + length (transactions_tags st)
   + size (transaction_embeddings st))%nat.

(** Rows of a keyed table in scan order; without [ORDER BY] SQL leaves the
    order open, and it is the enumeration of the map here. *)
Definition scan {V} (table : gmap Z V) : list (Z * V) := map_to_list table.

(** Order on [TEXT] values as [ORDER BY] uses it: [NULL] first, then
    strings bytewise. *)
Definition text_leb (a b : text) : bool :=
  match a, b with
  | None, _ => true
  | Some _, None => false
  | Some x, Some y => String.leb x y
  end.

(** ** Sync engine ([firefly_sync.py]) *)

Module firefly_sync.

(** An attribute of a remote record, read with [attrs.get(key, default)]:
    the key is absent, holds [null], or holds a value. *)
Inductive attr (A : Type) : Type := Absent | Null | Value (a : A).
Arguments Absent {A}.
Arguments Null {A}.
Arguments Value {A} a.

Definition attr_get {A} (a : attr A) (default : A) : option A :=
  match a with
  | Absent => Some default
  | Null => None
  | Value v => Some v
  end.

(** The reply to the GET of one page, as the loops read it: [NoData] when
    the call returned nothing or a body without a [data] key, [Data items]
    otherwise. *)
Inductive reply (A : Type) : Type := NoData | Data (items : list A).
Arguments NoData {A}.
Arguments Data {A} items.

(** Remote records, well-formed: ids are integers, numbers already
    converted by [int] and [float]. *)
Record remote_account := {
  ra_id : Z; ra_name : attr string; ra_type : attr string;
  ra_currency_code : attr string; ra_updated_at : attr string }.

Record remote_category := {
  rc_id : Z; rc_name : attr string; rc_updated_at : attr string }.

Record remote_bill := {
  rb_id : Z; rb_name : attr string;
  rb_amount_min : option PrimFloat.float; rb_amount_max : option PrimFloat.float;
  rb_updated_at : attr string }.

(** [rt_source_id], [rt_destination_id] and [rt_amount] are [None] when the
    key is absent; [rt_category_id] is [None] when absent or null; [rt_tags]
    is empty when absent or null. *)
Record remote_transaction := {
  rt_id : Z; rt_created_at : attr string; rt_updated_at : attr string;
  rt_description : attr string; rt_amount : option PrimFloat.float;
  rt_source_id : option Z; rt_destination_id : option Z;
  rt_category_id : option Z; rt_type : attr string;
  rt_source_name : attr string; rt_destination_name : attr string;
  rt_category_name : attr string; rt_tags : list string }.

(** What the ledger serves: for each entity its pages 1, 2, ... in order;
    the page after the last one listed is empty. *)
Record remote := {
  remote_accounts : list (reply remote_account);
  remote_categories : list (reply remote_category);
  remote_bills : list (reply remote_bill);
  remote_transactions : list (reply remote_transaction) }.

(** [CREATE TABLE IF NOT EXISTS]: an existing store is left as it is. *)
Definition init_db (st : store) : store := st.

(** The paging loop shared by the four syncs: stop at the first reply
    without data or with an empty page, otherwise process the page's items
    in order, commit, and go on to the next page. *)
Fixpoint sync_pages {A} (process : A -> store -> store)
         (replies : list (reply A)) (st : store) : store :=
  match replies with
  | [] => st
  | NoData :: _ => st
  | Data [] :: _ => st
  | Data page_data :: later =>
      sync_pages process later (fold_left (fun s item => process item s) page_data st)
  end.

Definition set_accounts (st : store) (t : gmap Z account_row) : store :=
  {| accounts := t; categories := categories st; bills := bills st;
     transactions := transactions st; transactions_tags := transactions_tags st;
     transaction_embeddings := transaction_embeddings st |}.

Definition set_categories (st : store) (t : gmap Z category_row) : store :=
  {| accounts := accounts st; categories := t; bills := bills st;
     transactions := transactions st; transactions_tags := transactions_tags st;
     transaction_embeddings := transaction_embeddings st |}.

Definition set_bills (st : store) (t : gmap Z bill_row) : store :=
  {| accounts := accounts st; categories := categories st; bills := t;
     transactions := transactions st; transactions_tags := transactions_tags st;
     transaction_embeddings := transaction_embeddings st |}.

Definition set_transactions (st : store) (t : gmap Z transaction_row) : store :=
  {| accounts := accounts st; categories := categories st; bills := bills st;
     transactions := t; transactions_tags := transactions_tags st;
     transaction_embeddings := transaction_embeddings st |}.

Definition set_transactions_tags (st : store) (t : list tag_row) : store :=
  {| accounts := accounts st; categories := categories st; bills := bills st;
     transactions := transactions st; transactions_tags := t;
     transaction_embeddings := transaction_embeddings st |}.

Definition set_transaction_embeddings (st : store) (t : gmap Z (list Byte.byte)) : store :=
  {| accounts := accounts st; categories := categories st; bills := bills st;
     transactions := transactions st; transactions_tags := transactions_tags st;
     transaction_embeddings := t |}.

(** [acc_type in ["reconciliation", "initial-balance"]] *)
Definition skipped_type (acc_type : text) : bool :=
  match acc_type with
  | Some s => String.eqb s "reconciliation" || String.eqb s "initial-balance"
  | None => false
  end.

(** Body of the [for item in page_data] loop of [sync_accounts]. *)
Definition account_item (item : remote_account) (st : store) : store :=
  let acc_id := ra_id item in
  let name := attr_get (ra_name item) "" in
  let acc_type := attr_get (ra_type item) "" in
  let currency := attr_get (ra_currency_code item) "" in
  let last_updated := attr_get (ra_updated_at item) "" in
  if skipped_type acc_type then st
  else set_accounts st
         (<[acc_id := {| acc_name := name; acc_type := acc_type;
                         acc_currency := currency;
                         acc_last_updated := last_updated |}]> (accounts st)).

Definition sync_accounts (replies : list (reply remote_account)) (st : store) : store :=
  sync_pages account_item replies st.

Definition category_item (item : remote_category) (st : store) : store :=
  let cat_id := rc_id item in
  let name := attr_get (rc_name item) "" in
  let last_updated := attr_get (rc_updated_at item) "" in
  set_categories st
    (<[cat_id := {| cat_name := name; cat_last_updated := last_updated |}]>
       (categories st)).

Definition sync_categories (replies : list (reply remote_category)) (st : store) : store :=
  sync_pages category_item replies st.

Definition bill_item (item : remote_bill) (st : store) : store :=
  let bill_id := rb_id item in
  let name := attr_get (rb_name item) "" in
  let amount_min := default 0%float (rb_amount_min item) in
  let amount_max := default 0%float (rb_amount_max item) in
  let last_updated := attr_get (rb_updated_at item) "" in
  set_bills st
    (<[bill_id := {| bill_name := name; bill_amount_min := amount_min;
                     bill_amount_max := amount_max;
                     bill_last_updated := last_updated |}]> (bills st)).

Definition sync_bills (replies : list (reply remote_bill)) (st : store) : store :=
  sync_pages bill_item replies st.

(** [int(trans.get(key, 0)) or None] *)
Definition id_or_none (v : option Z) : option Z :=
  let n := default 0 v in
  if n =? 0 then None else Some n.

(** The [for tag in tags: if tag:] loop: one plain [INSERT] per non-empty
    tag. *)
Definition insert_tags (trans_id : Z) (tags : list string) (rows : list tag_row) : list tag_row :=
  fold_left
    (fun rows tag =>
       if PyStr.truthy tag
       then rows ++ [{| tag_transaction_id := trans_id; tag_name := tag |}]
       else rows)
    tags rows.

(** Body of the [for item in page_data] loop of [sync_transactions]. *)
Definition transaction_item (item : remote_transaction) (st : store) : store :=
  let trans_id := rt_id item in
  let description := attr_get (rt_description item) "" in
  let amount := default 0%float (rt_amount item) in
  let created_at := attr_get (rt_created_at item) "" in
  let source_id := id_or_none (rt_source_id item) in
  let destination_id := id_or_none (rt_destination_id item) in
  let category_id := rt_category_id item in
  let trans_type := attr_get (rt_type item) "withdrawal" in
  let source_name := attr_get (rt_source_name item) "" in
  let destination_name := attr_get (rt_destination_name item) "" in
  let category_name := attr_get (rt_category_name item) "" in
  let last_updated := attr_get (rt_updated_at item) "" in
  let tags := rt_tags item in
  let st :=
    set_transactions st
      (<[trans_id := {| t_description := description; t_amount := amount;
                        t_created_at := created_at; t_source_id := source_id;
                        t_destination_id := destination_id;
                        t_category_id := category_id; t_type := trans_type;
                        t_source_name := source_name;
                        t_destination_name := destination_name;
                        t_category_name := category_name;
                        t_last_updated := last_updated |}]> (transactions st)) in
  set_transactions_tags st (insert_tags trans_id tags (transactions_tags st)).

Definition sync_transactions (replies : list (reply remote_transaction)) (st : store) : store :=
  sync_pages transaction_item replies st.

(** Names of the tag rows joined to transaction [tid], in row order. *)
Definition joined_tag_names (st : store) (tid : Z) : list string :=
  map tag_name
      (List.filter (fun r => tag_transaction_id r =? tid) (transactions_tags st)).

(** [GROUP_CONCAT(name, sep)] over the joined rows: [NULL] when the
    [LEFT JOIN] found none. *)
Definition group_concat (sep : string) (names : list string) : text :=
  match names with
  | [] => None
  | _ => Some (PyStr.join sep names)
  end.

(** A row of the query of [store_transaction_embeddings]. *)
Record pending_row := {
  p_id : Z; p_desc : text; p_src_name : text; p_dest_name : text;
  p_cat_name : text; p_tags : text; p_amount : PrimFloat.float }.

Definition pending_of (st : store) (entry : Z * transaction_row) : pending_row :=
  let '(tid, t) := entry in
  {| p_id := tid; p_desc := t_description t; p_src_name := t_source_name t;
     p_dest_name := t_destination_name t; p_cat_name := t_category_name t;
     p_tags := group_concat ", " (joined_tag_names st tid);
     p_amount := t_amount t |}.

(** The transactions [NOT IN (SELECT transaction_id FROM
    transaction_embeddings)], each with its aggregated tags. *)
Definition pending_rows (st : store) : list pending_row :=
  map (pending_of st)
      (List.filter
         (fun entry => bool_decide (transaction_embeddings st !! entry.1 = None))
         (scan (transactions st))).

(** Truth value of a float: anything but zero. *)
Definition float_truthy (x : PrimFloat.float) : bool :=
  negb (PrimFloat.eqb x 0%float).

Section Embeddings.
Context `{Externals}.

(** The text handed to the encoder, built as the loop body builds
    [parts]. *)
Definition embedding_text (r : pending_row) : string :=
  let parts := [text_or_empty (p_desc r)] in
  let parts :=
    if text_truthy (p_src_name r)
    then (parts ++ ["source " +:+ fmt_text (p_src_name r);
                    "from " +:+ fmt_text (p_src_name r)])
    else parts in
  let parts :=
    if text_truthy (p_dest_name r)
    then (parts ++ ["destination " +:+ fmt_text (p_dest_name r);
                    "to " +:+ fmt_text (p_dest_name r)])
    else parts in
  let parts :=
    if text_truthy (p_cat_name r)
    then (parts ++ ["category " +:+ fmt_text (p_cat_name r)])
    else parts in
  let parts :=
    if text_truthy (p_tags r)
    then (parts ++ ["tags " +:+ fmt_text (p_tags r)])
    else parts in
  let parts :=
    if float_truthy (p_amount r)
    then (parts ++ ["amount " +:+ float_str (p_amount r)])
    else parts in
  PyStr.join " " parts.

Definition store_embedding (r : pending_row) (st : store) : store :=
  let embedding := tobytes (encode (embedding_text r)) in
  set_transaction_embeddings st (<[p_id r := embedding]> (transaction_embeddings st)).

Definition store_transaction_embeddings (st : store) : store :=
  let rows := pending_rows st in
  fold_left (fun s r => store_embedding r s) rows st.

(** [main]: the four syncs, then the embedding backfill.  The
    [updated_at] filter is a constant of the program. *)
Definition main (r : remote) (st : store) : store :=
  let st := init_db st in
  let st := sync_accounts (remote_accounts r) st in
  let st := sync_categories (remote_categories r) st in
  let st := sync_bills (remote_bills r) st in
  let st := sync_transactions (remote_transactions r) st in
  store_transaction_embeddings st.

End Embeddings.


(** [call_firefly_api_curl]: the URL, the command handed to [curl], and the
    reading of its result.  [run] is [subprocess.run] on the command: the
    return code and the captured standard output; [json_dumps] is
    [json.dumps]. *)
Definition api_url (base endpoint : string) : string :=
  PyStr.rstrip_char "/" base +:+ "/" +:+ PyStr.lstrip_char "/" endpoint.

Section Api.
Context `{Externals}.
Variable json_dumps : json -> string.
Variable run : list string -> Z * string.

Definition curl_command (base token endpoint method : string) (data : option json)
  : list string :=
  let url := api_url base endpoint in
  let curl_cmd :=
    ["curl"; "-X"; method; url; "-H"; "Authorization: Bearer " +:+ token;
     "-H"; "Accept: application/json"] in
  match data with
  | Some d =>
      if String.eqb method "POST" && Json.truthy d
      then curl_cmd ++ ["-H"; "Content-Type: application/json"; "-d"; json_dumps d]
      else curl_cmd
  | None => curl_cmd
  end.

Definition call_firefly_api_curl (base token endpoint method : string)
           (data : option json) : option json :=
  let result := run (curl_command base token endpoint method data) in
  if negb (result.1 =? 0) then None
  else json_loads result.2.

End Api.

End firefly_sync.

(** ** Context builder ([context_loader.py]) *)

Module context_loader.

(** A Python dict as the list of its items in insertion order.
    [dict_set] is [d[k] = v]: an existing key keeps its place. *)
Fixpoint dict_set {K V} (eqb : K -> K -> bool) (k : K) (v : V)
         (d : list (K * V)) : list (K * V) :=
  match d with
  | [] => [(k, v)]
  | (k', v') :: d' =>
      if eqb k' k then (k', v) :: d' else (k', v') :: dict_set eqb k v d'
  end.

Fixpoint dict_get {K V} (eqb : K -> K -> bool) (k : K) (d : list (K * V)) : option V :=
  match d with
  | [] => None
  | (k', v') :: d' => if eqb k' k then Some v' else dict_get eqb k d'
  end.

(** [WHERE type IN ('asset')] *)
Definition is_asset (row : account_row) : bool :=
  match acc_type row with
  | Some s => String.eqb s "asset"
  | None => false
  end.

(** [load_accounts]: id (as a string) -> name, for the asset accounts,
    inserted in the order of [ORDER BY name]. *)
Definition load_accounts (st : store) : list (string * text) :=
  let rows :=
    sort_by (fun a b => text_leb (acc_name a.2) (acc_name b.2))
            (List.filter (fun entry => is_asset entry.2) (scan (accounts st))) in
  fold_left
    (fun account_map entry =>
       dict_set String.eqb (PyStr.str_of_Z entry.1) (acc_name entry.2) account_map)
    rows [].

(** [load_categories]: the non-empty category names, ordered. *)
Definition load_categories (st : store) : list string :=
  let rows := sort_by text_leb (map (fun entry => cat_name entry.2) (scan (categories st))) in
  omap (fun name => if text_truthy name then name else None) rows.

(** [SELECT DISTINCT name]: the first row of each name. *)
Definition distinct (names : list string) : list string :=
  fold_left (fun seen n => if existsb (String.eqb n) seen then seen else seen ++ [n])
            names [].

(** [load_tags]: the distinct non-empty tag names, ordered. *)
Definition load_tags (st : store) : list string :=
  let rows := sort_by String.leb (distinct (map tag_name (transactions_tags st))) in
  List.filter PyStr.truthy rows.

(** [load_bills]: id -> details (the name), inserted in the order of
    [ORDER BY name]. *)
Definition load_bills (st : store) : list (Z * text) :=
  let rows :=
    sort_by (fun a b => text_leb (bill_name a.2) (bill_name b.2)) (scan (bills st)) in
  fold_left
    (fun bills_map entry => dict_set Z.eqb entry.1 (bill_name entry.2) bills_map)
    rows [].

Definition arrow : string := " → ".

Definition accounts_header : string := "## KNOWN ACCOUNTS:" +:+ PyStr.nl.
Definition categories_header : string := "## KNOWN CATEGORIES:" +:+ PyStr.nl.
Definition tags_header : string := "## KNOWN TAGS:" +:+ PyStr.nl.
Definition bills_header : string := "## KNOWN BILLS:" +:+ PyStr.nl.
Definition no_accounts : string := "  (No accounts found.)" +:+ PyStr.nl.
Definition no_categories : string := "  (No categories found.)" +:+ PyStr.nl.
Definition no_tags : string := "  (No tags found.)" +:+ PyStr.nl.
Definition no_bills : string := "  (No bills found.)" +:+ PyStr.nl.

Definition account_line (item : string * text) : string :=
  "  - " +:+ PyStr.dq +:+ fmt_text item.2 +:+ PyStr.dq +:+ arrow +:+ item.1 +:+ PyStr.nl.

Definition flat_line (name : string) : string :=
  "  - " +:+ name +:+ PyStr.nl.

Definition bill_line (item : Z * text) : string :=
  "  - " +:+ PyStr.dq +:+ fmt_text item.2 +:+ PyStr.dq +:+ arrow
  +:+ PyStr.str_of_Z item.1 +:+ PyStr.nl.

(** [build_prompt_context]: each section starts from its header and is
    extended line by line, or by the placeholder when there is nothing to
    list. *)
Definition build_prompt_context (st : store) : string :=
  let account_map := load_accounts st in
  let categories := load_categories st in
  let tags := load_tags st in
  let bills := load_bills st in
  let accounts_section :=
    match account_map with
    | [] => accounts_header +:+ no_accounts
    | _ => fold_left (fun sec item => sec +:+ account_line item) account_map accounts_header
    end in
  let categories_section :=
    match categories with
    | [] => categories_header +:+ no_categories
    | _ => fold_left (fun sec cat => sec +:+ flat_line cat) categories categories_header
    end in
  let tags_section :=
    match tags with
    | [] => tags_header +:+ no_tags
    | _ => fold_left (fun sec tag => sec +:+ flat_line tag) tags tags_header
    end in
  let bills_section :=
    match bills with
    | [] => bills_header +:+ no_bills
    | _ => fold_left (fun sec item => sec +:+ bill_line item) bills bills_header
    end in
  accounts_section +:+ PyStr.nl +:+ categories_section +:+ PyStr.nl
  +:+ tags_section +:+ PyStr.nl +:+ bills_section.

End context_loader.

(** ** Intent resolver ([intent_filter.py]) *)

Module intent_filter.

Definition tags_marker : string := "tags:".

(** [[tag.strip().lower() for tag in tags_part.split(",") if tag.strip()]] *)
Definition parse_tag_list (tags_part : string) : list string :=
  map (fun tag => PyStr.lower (PyStr.strip tag))
      (filter (fun tag => PyStr.truthy (PyStr.strip tag) = true)
              (PyStr.split "," tags_part)).

(** [extract_tags_from_input]: the cleaned input and the explicit tags.
    [parts[1]] exists whenever the marker occurs; the [nth] defaults are
    never reached. *)
Definition extract_tags_from_input (user_input : string) : string * list string :=
  if PyStr.contains tags_marker user_input then
    let parts := PyStr.split tags_marker user_input in
    let main_input := PyStr.strip (nth 0 parts EmptyString) in
    let tags_part := PyStr.strip (nth 1 parts EmptyString) in
    (main_input, parse_tag_list tags_part)
  else (user_input, []).

(** A calendar date and [date.isoformat()]. *)
Record date := { year : Z; month : Z; day : Z }.

(** [s.zfill(width)] for an unsigned numeral: zeros on the left up to
    [width] characters. *)
Fixpoint zeros (n : nat) : string :=
  match n with
  | O => EmptyString
  | S n' => String "0" (zeros n')
  end.

Definition zfill (width : nat) (s : string) : string :=
  zeros (width - String.length s) +:+ s.

Definition isoformat (d : date) : string :=
  zfill 4 (PyStr.str_of_Z (year d)) +:+ "-" +:+ zfill 2 (PyStr.str_of_Z (month d))
  +:+ "-" +:+ zfill 2 (PyStr.str_of_Z (day d)).

(** Grounding context taken from the most similar transaction. *)
Record context_info := {
  previous_description : text; typical_amount : string; common_source : text;
  common_destination : text; common_category : text; common_tags : list string }.

(** The values interpolated into the prompt; the instruction text around
    them is constant.  [prompt_similar_context] is [None] where the prompt
    has the empty string. *)
Record prompt := {
  prompt_context_snippet : string; prompt_user_input : string;
  prompt_similar_context : option context_info; prompt_user_tags : list string }.

(** The proposal dict returned by [determine_intent]. *)
Record proposal := {
  pr_type : json; pr_amount : string; pr_description : json;
  pr_source_id : json; pr_destination_id : json;
  pr_source_name : text; pr_destination_name : text;
  pr_currency_code : json; pr_date : string; pr_category_name : json;
  pr_tags : list json; pr_bill_name : text; pr_bill_id : json;
  pr_missing_info : list json }.

(** What a call of the resolver reads from outside: the store, the clock,
    and the chat completion endpoint ([None] when the request raises,
    otherwise the content of the first choice). *)
Record environment := {
  db : store; today : date; chat_completion : prompt -> option string }.

Inductive event := ChatRequest (p : prompt).

Inductive log_entry := EmbeddingError (tid : Z).

(** [key=lambda x: x[1], reverse=True]: [x] may precede [y] when its score
    is not smaller. *)
Definition by_score_desc (x y : Z * Q) : bool := Qle_bool y.2 x.2.

(** [l[:k]] *)
Definition slice_to {A} (k : Z) (l : list A) : list A :=
  if 0 <=? k then firstn (Z.to_nat k) l
  else firstn (length l - Z.to_nat (- k)) l.

(** [bill_map.get(bill_id, {})] with [bill_id] a [str]: the keys of
    [bill_map] are the integer ids of [load_bills], and a [str] equals no
    [int], so nothing is found. *)
Definition bill_map_get (bill_id : string) (bill_map : list (Z * text)) : option text :=
  None.

Definition default_context : context_info :=
  {| previous_description := Some ""; typical_amount := ""; common_source := Some "";
     common_destination := Some ""; common_category := Some ""; common_tags := [] |}.

Section Resolver.
Context `{Externals}.

(** Body of the [for tid, emb in rows] loop: a row whose embedding does not
    decode, or whose similarity cannot be computed, is logged and left
    out. *)
Definition similarity_step (embedding : vector)
           (acc : list (Z * Q) * list log_entry) (row : Z * list Byte.byte)
  : list (Z * Q) * list log_entry :=
  let '(similarities, log) := acc in
  let '(tid, emb) := row in
  match frombuffer emb with
  | Some emb_array =>
      match cosine_similarity embedding emb_array with
      | Some similarity => (similarities ++ [(tid, similarity)], log)
      | None => (similarities, log ++ [EmbeddingError tid])
      end
  | None => (similarities, log ++ [EmbeddingError tid])
  end.

(** [find_similar_transactions]: the result and the errors logged. *)
Definition find_similar_transactions (st : store) (desc : string) (top_k : Z)
  : list (Z * Q) * list log_entry :=
  let embedding := encode desc in
  let rows := scan (transaction_embeddings st) in
  let '(similarities, log) := fold_left (similarity_step embedding) rows ([], []) in
  (slice_to top_k (sort_by by_score_desc similarities), log).

(** Step 2 of [determine_intent]: [context_info] after the lookup of the
    best match. *)
Definition exemplar_context (st : store) (similar_tids : list (Z * Q)) : context_info :=
  match similar_tids with
  | [] => default_context
  | (best_tid, _) :: _ =>
      let row := transactions st !! best_tid in
      let tag_rows := firefly_sync.joined_tag_names st best_tid in
      let info :=
        match row with
        | Some t =>
            {| previous_description := t_description t;
               typical_amount := float_str (t_amount t);
               common_source := t_source_name t;
               common_destination := t_destination_name t;
               common_category := t_category_name t;
               common_tags := [] |}
        | None => default_context
        end in
      match tag_rows with
      | [] => info
      | _ =>
          {| previous_description := previous_description info;
             typical_amount := typical_amount info;
             common_source := common_source info;
             common_destination := common_destination info;
             common_category := common_category info;
             common_tags := tag_rows |}
      end
  end.

(** [user_tags + data.get("tags", [])]: both operands must be lists. *)
Definition concat_tags (user_tags : list string) (model_tags : json) : outcome (list json) :=
  match model_tags with
  | JArr items => Returned (map JStr user_tags ++ items)
  | _ => Raised TypeError
  end.

(** [list(set(xs))]: every element must be hashable. *)
Definition unique_tags (xs : list json) : outcome (list json) :=
  if forallb Json.hashable xs then Returned (Json.list_of_set xs)
  else Raised TypeError.

(** Step 5 of [determine_intent], on the decoded response. *)
Definition finalize (env : environment) (user_input : string)
           (user_tags : list string) (data : json) : outcome proposal :=
  match data with
  | JObj members =>
      let missing_info :=
        match Json.get_default "missing_info" (JArr []) members with
        | JArr items => items
        | _ => []
        end in
      let date_str := isoformat (today env) in
      let account_map := context_loader.load_accounts (db env) in
      let bill_map := context_loader.load_bills (db env) in
      let bill_id := PyStr.lower (py_str (Json.get_default "bill_id" (JStr "unknown") members)) in
      let source_id := PyStr.lower (py_str (Json.get_default "source_id" (JStr "unknown") members)) in
      let destination_id :=
        PyStr.lower (py_str (Json.get_default "destination_id" (JStr "unknown") members)) in
      all_tags ← concat_tags user_tags (Json.get_default "tags" (JArr []) members);
      tags ← unique_tags all_tags;
      mret
        {| pr_type := Json.get_default "type" (JStr "withdrawal") members;
           pr_amount := py_str (Json.get_default "amount" (JStr "0") members);
           pr_description := Json.get_default "description" (JStr user_input) members;
           pr_source_id := Json.get_default "source_id" (JStr "unknown") members;
           pr_destination_id := Json.get_default "destination_id" (JStr "unknown") members;
           pr_source_name :=
             default (Some "") (context_loader.dict_get String.eqb source_id account_map);
           pr_destination_name :=
             default (Some "") (context_loader.dict_get String.eqb destination_id account_map);
           pr_currency_code := Json.get_default "currency_code" (JStr "USD") members;
           pr_date := date_str;
           pr_category_name := Json.get_default "category_name" (JStr "") members;
           pr_tags := tags;
           pr_bill_name := default (Some "") (bill_map_get bill_id bill_map);
           pr_bill_id := Json.get_default "bill_id" (JStr "unknown") members;
           pr_missing_info := missing_info |}
  | _ => Raised AttributeError
  end.

(** [determine_intent]: what the call returns ([None] is "no proposal") or
    raises, and the requests it sent to the chat endpoint. *)
Definition determine_intent (env : environment) (user_input : string)
  : outcome (option proposal) * list event :=
  let '(user_input, user_tags) := extract_tags_from_input user_input in
  let context_snippet := context_loader.build_prompt_context (db env) in
  let similar_tids := (find_similar_transactions (db env) user_input 1).1 in
  let context_info := exemplar_context (db env) similar_tids in
  let similar_context :=
    match similar_tids with
    | [] => None
    | _ => Some context_info
    end in
  let p :=
    {| prompt_context_snippet := context_snippet; prompt_user_input := user_input;
       prompt_similar_context := similar_context; prompt_user_tags := user_tags |} in
  match chat_completion env p with
  | None => (Returned None, [ChatRequest p])
  | Some content =>
      let response_str := PyStr.strip content in
      match json_loads response_str with
      | None => (Returned None, [ChatRequest p])
      | Some data =>
          (result ← finalize env user_input user_tags data; mret (Some result),
           [ChatRequest p])
      end
  end.

End Resolver.


(** [load_account_cache], run when the module is loaded: lower-cased name
    -> id and type.  [name.lower()] raises on a [NULL] name. *)
Definition load_account_cache (st : store) : outcome (list (string * (Z * text))) :=
  fold_left
    (fun cache entry =>
       account_cache ← cache;
       match acc_name entry.2 with
       | Some name =>
           mret (context_loader.dict_set String.eqb (PyStr.lower name)
                   (entry.1, acc_type entry.2) account_cache)
       | None => Raised AttributeError
       end)
    (scan (accounts st)) (Returned []).

End intent_filter.

(** ** Transaction submitter ([main.py]) *)

Module main.

Import intent_filter.

(** The transaction of the POST body; the optional references are present
    only when resolved. *)
Record transaction := {
  tx_type : json; tx_date : string; tx_amount : string; tx_description : json;
  tx_currency_code : json; tx_category_name : json;
  tx_source_id : option Z; tx_destination_id : option Z; tx_bill_id : option Z;
  tx_tags : option (list json) }.

Inductive event := PostRequest (payload : list transaction).

(** What [post_transaction] returns: the success message, [True], the
    error response itself, or [False]. *)
Inductive post_result :=
  | SuccessMessage (text : string)
  | PostedTrue
  | ErrorResponse (response : json)
  | PostedFalse.

(** [needle in v] for a string [needle]. *)
Definition py_in (needle : string) (v : json) : outcome bool :=
  match v with
  | JObj members => Returned (Json.has_key needle members)
  | JArr items => Returned (existsb (Json.py_eq (JStr needle)) items)
  | JStr s => Returned (PyStr.contains needle s)
  | _ => Raised TypeError
  end.

(** [v.get(key, default)]: only a dict has [get]. *)
Definition py_get (key : string) (default : json) (v : json) : outcome json :=
  match v with
  | JObj members => Returned (Json.get_default key default members)
  | _ => Raised AttributeError
  end.

(** [d[key]] on the first element of [transaction_data]. *)
Definition py_item (key : string) (v : json) : outcome json :=
  match v with
  | JObj members =>
      match Json.obj_get key members with
      | Some x => Returned x
      | None => Raised KeyError
      end
  | _ => Raised TypeError
  end.

(** [transaction_data[0]] for a truthy [transaction_data]. *)
Definition py_first (v : json) : outcome json :=
  match v with
  | JArr (x :: _) => Returned x
  | JArr [] => Raised IndexError
  | JStr (String c _) => Returned (JStr (String c EmptyString))
  | JStr EmptyString => Raised IndexError
  | JObj _ => Raised KeyError
  | _ => Raised TypeError
  end.

Fixpoint chars (s : string) : list string :=
  match s with
  | EmptyString => []
  | String c s' => String c EmptyString :: chars s'
  end.

Fixpoint all_strings (items : list json) : option (list string) :=
  match items with
  | [] => Some []
  | JStr s :: rest => option_map (cons s) (all_strings rest)
  | _ :: _ => None
  end.

(** [', '.join(v)]: the strings of a list, the keys of a dict, or the
    characters of a string. *)
Definition py_join (sep : string) (v : json) : outcome string :=
  match v with
  | JArr items =>
      match all_strings items with
      | Some l => Returned (PyStr.join sep l)
      | None => Raised TypeError
      end
  | JObj members => Returned (PyStr.join sep (map fst members))
  | JStr s => Returned (PyStr.join sep (chars s))
  | _ => Raised TypeError
  end.

Section Submitter.
Context `{Externals}.

(** [int(v)] *)
Definition py_int (v : json) : outcome Z :=
  match v with
  | JInt n => Returned n
  | JBool b => Returned (Json.num_of_bool b)
  | JStr s =>
      match int_of_str s with
      | Some n => Returned n
      | None => Raised ValueError
      end
  | _ => Raised TypeError
  end.

(** [if proposal.get(key) != "unknown": transaction[key] = int(proposal[key])] *)
Definition resolved_id (v : json) : outcome (option Z) :=
  match v with
  | JStr "unknown" => Returned None
  | _ => n ← py_int v; mret (Some n)
  end.

Definition build_transaction (p : proposal) : outcome transaction :=
  source_id ← resolved_id (pr_source_id p);
  destination_id ← resolved_id (pr_destination_id p);
  bill_id ← resolved_id (pr_bill_id p);
  mret {| tx_type := pr_type p; tx_date := pr_date p; tx_amount := pr_amount p;
          tx_description := pr_description p;
          tx_currency_code := pr_currency_code p;
          tx_category_name := pr_category_name p;
          tx_source_id := source_id; tx_destination_id := destination_id;
          tx_bill_id := bill_id;
          tx_tags := match pr_tags p with [] => None | tags => Some tags end |}.

(** The message built from the first inserted transaction. *)
Definition success_message (details : json) : outcome string :=
  ty ← py_item "type" details;
  amount ← py_item "amount" details;
  currency_code ← py_item "currency_code" details;
  description ← py_item "description" details;
  source_name ← py_item "source_name" details;
  source_id ← py_item "source_id" details;
  destination_name ← py_item "destination_name" details;
  destination_id ← py_item "destination_id" details;
  tags ← py_item "tags" details;
  tags_text ← py_join ", " tags;
  category_name ← py_item "category_name" details;
  date ← py_item "date" details;
  mret ("✅ Transaction successfully inserted:" +:+ PyStr.nl
        +:+ "Type: " +:+ py_str ty +:+ PyStr.nl
        +:+ "Amount: " +:+ py_str amount +:+ " " +:+ py_str currency_code +:+ PyStr.nl
        +:+ "Description: " +:+ py_str description +:+ PyStr.nl
        +:+ "Source: " +:+ py_str source_name +:+ " (ID: " +:+ py_str source_id +:+ ")" +:+ PyStr.nl
        +:+ "Destination: " +:+ py_str destination_name +:+ " (ID: "
        +:+ py_str destination_id +:+ ")" +:+ PyStr.nl
        +:+ "Tags: " +:+ tags_text +:+ PyStr.nl
        +:+ "Category: " +:+ py_str category_name +:+ PyStr.nl
        +:+ "Date: " +:+ py_str date +:+ PyStr.nl).

(** The branch taken when the response is truthy and has no [errors]. *)
Definition report_success (response : json) : outcome post_result :=
  data ← py_get "data" (JObj []) response;
  attributes ← py_get "attributes" (JObj []) data;
  transaction_data ← py_get "transactions" (JArr []) attributes;
  if Json.truthy transaction_data then
    details ← py_first transaction_data;
    message ← success_message details;
    mret (SuccessMessage message)
  else mret PostedTrue.

(** Reading of the response to the POST ([None]: the call gave nothing). *)
Definition interpret_response (response : option json) : outcome post_result :=
  match response with
  | Some r =>
      if Json.truthy r then
        has_errors ← py_in "errors" r;
        if negb has_errors then report_success r
        else mret (ErrorResponse r)
      else mret PostedFalse
  | None => mret PostedFalse
  end.

(** [post_transaction]: the result and the requests sent to the ledger.
    [api] is the POST to [/transactions] through
    [call_firefly_api_curl]. *)
Definition post_transaction (api : list transaction -> option json) (p : proposal)
  : outcome post_result * list event :=
  match build_transaction p with
  | Raised e => (Raised e, [])
  | Returned transaction =>
      let payload := [transaction] in
      let response := api payload in
      (interpret_response response, [PostRequest payload])
  end.

End Submitter.


(** [fetch_accounts]: id and name of the accounts, ordered by name. *)
Definition fetch_accounts (st : store) : list (Z * text) :=
  map (fun entry : Z * account_row => (entry.1, acc_name entry.2))
      (sort_by (fun a b => text_leb (acc_name a.2) (acc_name b.2)) (scan (accounts st))).

End main.

(** ** The earlier submitter ([final_prompt.py]) *)

Module final_prompt.

(** What [process] returns: [response and "data" in response] is the
    response itself when it is falsy, the membership test otherwise. *)
Inductive process_result :=
  | Falsy (response : option json)
  | Tested (has_data : bool).

Definition process_truthy (r : process_result) : bool :=
  match r with
  | Falsy _ => false
  | Tested b => b
  end.

(** The last line of [process], on the response to the POST. *)
Definition process_response (response : option json) : outcome process_result :=
  match response with
  | Some r =>
      if Json.truthy r then
        has_data ← main.py_in "data" r; mret (Tested has_data)
      else mret (Falsy response)
  | None => mret (Falsy None)
  end.


(** The transaction [process] posts. *)
Record payload := {
  fp_type : json; fp_amount : json; fp_description : json; fp_source_id : json;
  fp_destination_id : json; fp_currency_code : string; fp_date : string;
  fp_category_name : json; fp_bill_id : json; fp_tags : json }.

Inductive event := PostRequest (transactions : list payload).

(** [proposal[key]] *)
Definition required (key : string) (proposal : list (string * json)) : outcome json :=
  match Json.obj_get key proposal with
  | Some v => Returned v
  | None => Raised KeyError
  end.

Definition build_payload (today : intent_filter.date) (proposal : list (string * json))
  : outcome payload :=
  intent ← required "intent" proposal;
  amount ← required "amount" proposal;
  description ← required "description" proposal;
  source_id ← required "source_id" proposal;
  destination_id ← required "destination_id" proposal;
  currency ← required "currency" proposal;
  bill_id ← required "bill_id" proposal;
  mret {| fp_type := intent; fp_amount := amount; fp_description := description;
          fp_source_id := source_id; fp_destination_id := destination_id;
          fp_currency_code := if Json.py_eq currency (JStr "yen") then "JPY" else "USD";
          fp_date := intent_filter.isoformat today;
          fp_category_name := Json.get_default "category_name" (JStr "") proposal;
          fp_bill_id := bill_id;
          fp_tags := Json.get_default "tags" (JArr []) proposal |}.

(** [process]: the result and the requests sent.  [api] is the POST through
    this file's [call_firefly_api_curl], which lets the decoder's error
    escape. *)
Definition process (api : list payload -> outcome (option json))
           (today : intent_filter.date) (proposal : list (string * json))
  : outcome process_result * list event :=
  match build_payload today proposal with
  | Raised e => (Raised e, [])
  | Returned transaction =>
      (response ← api [transaction]; process_response response,
       [PostRequest [transaction]])
  end.

End final_prompt.


(** ** The retrieval test script ([similiarity_test.py]) *)

Module similiarity_test.

Record test_case := { tc_input : string; tc_expected_id : string; tc_description : string }.

Inductive verdict :=
  | Pass
  | FailWrongId (expected : string) (got : Z)
  | FailNoMatch.

Section Tests.
Context `{Externals}.

(** The verdict logged for one test case: the top match of
    [find_similar_transactions] (default [top_k], 3) is compared with the
    expected id, a string, by [==]. *)
Definition run_test (st : store) (test : test_case) : verdict :=
  let similar_tids := (intent_filter.find_similar_transactions st (tc_input test) 3).1 in
  match similar_tids with
  | (tid, similarity) :: _ =>
      if Json.py_eq (JInt tid) (JStr (tc_expected_id test)) then Pass
      else FailWrongId (tc_expected_id test) tid
  | [] => FailNoMatch
  end.

Definition run_tests (st : store) (tests : list test_case) : list verdict :=
  map (run_test st) tests.

End Tests.

End similiarity_test.

(** ** Auxiliary notions used in the statements *)

(** A batch of [INSERT OR REPLACE] statements, in order. *)
Definition upsert_all {A V : Type} (key : A -> Z) (val : A -> V)
           (rows : list A) (m : gmap Z V) : gmap Z V :=
  fold_left (fun m r => <[key r := val r]> m) rows m.

(** The blob stored for a row of the backfill query. *)
Definition embedding_of `{Externals} (r : firefly_sync.pending_row) : list Byte.byte :=
  tobytes (encode (firefly_sync.embedding_text r)).

(** Every tag row names its tag: what the [if tag:] guard of
    [sync_transactions] maintains. *)
Definition tags_named (st : store) : Prop :=
  Forall (fun r => tag_name r <> "") (transactions_tags st).

(** The items a paging loop processes: those of the pages served before
    the first reply without data or with an empty page. *)
Fixpoint served {A} (replies : list (firefly_sync.reply A)) : list A :=
  match replies with
  | firefly_sync.Data (item :: items) :: later => (item :: items) ++ served later
  | _ => []
  end.

(** The rows the syncs write for a remote record. *)
Definition account_row_of (item : firefly_sync.remote_account) : account_row :=
  {| acc_name := firefly_sync.attr_get (firefly_sync.ra_name item) "";
     acc_type := firefly_sync.attr_get (firefly_sync.ra_type item) "";
     acc_currency := firefly_sync.attr_get (firefly_sync.ra_currency_code item) "";
     acc_last_updated := firefly_sync.attr_get (firefly_sync.ra_updated_at item) "" |}.

Definition mirrored (item : firefly_sync.remote_account) : bool :=
  negb (firefly_sync.skipped_type
          (firefly_sync.attr_get (firefly_sync.ra_type item) "")).

Definition category_row_of (item : firefly_sync.remote_category) : category_row :=
  {| cat_name := firefly_sync.attr_get (firefly_sync.rc_name item) "";
     cat_last_updated := firefly_sync.attr_get (firefly_sync.rc_updated_at item) "" |}.

Definition bill_row_of (item : firefly_sync.remote_bill) : bill_row :=
  {| bill_name := firefly_sync.attr_get (firefly_sync.rb_name item) "";
     bill_amount_min := default 0%float (firefly_sync.rb_amount_min item);
     bill_amount_max := default 0%float (firefly_sync.rb_amount_max item);
     bill_last_updated := firefly_sync.attr_get (firefly_sync.rb_updated_at item) "" |}.

Definition transaction_row_of (item : firefly_sync.remote_transaction) : transaction_row :=
  {| t_description := firefly_sync.attr_get (firefly_sync.rt_description item) "";
     t_amount := default 0%float (firefly_sync.rt_amount item);
     t_created_at := firefly_sync.attr_get (firefly_sync.rt_created_at item) "";
     t_source_id := firefly_sync.id_or_none (firefly_sync.rt_source_id item);
     t_destination_id := firefly_sync.id_or_none (firefly_sync.rt_destination_id item);
     t_category_id := firefly_sync.rt_category_id item;
     t_type := firefly_sync.attr_get (firefly_sync.rt_type item) "withdrawal";
     t_source_name := firefly_sync.attr_get (firefly_sync.rt_source_name item) "";
     t_destination_name := firefly_sync.attr_get (firefly_sync.rt_destination_name item) "";
     t_category_name := firefly_sync.attr_get (firefly_sync.rt_category_name item) "";
     t_last_updated := firefly_sync.attr_get (firefly_sync.rt_updated_at item) "" |}.

(** The tag rows one pass over the served transactions appends: one per
    non-empty tag of each transaction, in order. *)
Definition tag_rows_of (item : firefly_sync.remote_transaction) : list tag_row :=
  map (fun tag => {| tag_transaction_id := firefly_sync.rt_id item; tag_name := tag |})
      (List.filter PyStr.truthy (firefly_sync.rt_tags item)).

Definition emitted_tags (items : list firefly_sync.remote_transaction) : list tag_row :=
  flat_map tag_rows_of items.

(** A section of the prompt context: its header, then its lines, or the
    placeholder when there is no line. *)
Definition section_text (header placeholder : string) (lines : list string) : string :=
  header +:+ match lines with
             | [] => placeholder
             | _ => String.concat "" lines
             end.

(** The scored pair of a stored row, when its embedding decodes and the
    similarity to the query can be computed. *)
Definition score_row `{Externals} (embedding : vector) (row : Z * list Byte.byte)
  : option (Z * Q) :=
  match frombuffer row.2 with
  | Some emb_array =>
      match cosine_similarity embedding emb_array with
      | Some similarity => Some (row.1, similarity)
      | None => None
      end
  | None => None
  end.

Definition fails_to_score `{Externals} (embedding : vector) (row : Z * list Byte.byte) : bool :=
  match score_row embedding row with Some _ => false | None => true end.

(** No entry equals an earlier one, in the sense of Python's [==]. *)
Fixpoint py_distinct (l : list json) : Prop :=
  match l with
  | [] => True
  | a :: l' => Forall (fun b => Json.py_eq b a = false) l' /\ py_distinct l'
  end.

(** The prompt [determine_intent] composes for an input. *)
Definition request_of `{Externals} (env : intent_filter.environment) (input : string)
  : intent_filter.prompt :=
  let '(user_input, user_tags) := intent_filter.extract_tags_from_input input in
  let similar_tids :=
    (intent_filter.find_similar_transactions (intent_filter.db env) user_input 1).1 in
  {| intent_filter.prompt_context_snippet :=
       context_loader.build_prompt_context (intent_filter.db env);
     intent_filter.prompt_user_input := user_input;
     intent_filter.prompt_similar_context :=
       match similar_tids with
       | [] => None
       | _ => Some (intent_filter.exemplar_context (intent_filter.db env) similar_tids)
       end;
     intent_filter.prompt_user_tags := user_tags |}.

(** [s.isascii()]: every character is below 128.  On such strings
    [PyStr.lower], [PyStr.isspace] and the functions built on them are
    Python's. *)
Fixpoint isascii (s : string) : bool :=
  match s with
  | EmptyString => true
  | String c s' => (nat_of_ascii c <? 128)%nat && isascii s'
  end.

(** ** Store invariants *)

(** No mirrored account has a type the sync excludes. *)
Definition no_excluded_accounts (st : store) : Prop :=
  forall id row, accounts st !! id = Some row ->
                 firefly_sync.skipped_type (acc_type row) = false.


(** ** Renderings as the specification words them *)

Module spec.

Section Rendering.
Context `{Externals}.


End Rendering.

End spec.

(** ** Sample collaborators and data *)

Module sample.

Definition quoted (s : string) : string := PyStr.dq +:+ s +:+ PyStr.dq.

(** A model reply carrying two tags and a date of its own:
    [{"tags": ["rent", "monthly"], "date": "1999-01-01"}]. *)
Definition reply_text : string :=
  "{" +:+ quoted "tags" +:+ ": [" +:+ quoted "rent" +:+ ", " +:+ quoted "monthly"
  +:+ "], " +:+ quoted "date" +:+ ": " +:+ quoted "1999-01-01" +:+ "}".

Definition reply_json : json :=
  JObj [("tags", JArr [JStr "rent"; JStr "monthly"]); ("date", JStr "1999-01-01")].

(** A ledger reply with neither [data] nor [errors]:
    [{"message": "Unauthenticated."}]. *)
Definition unauthenticated : json := JObj [("message", JStr "Unauthenticated.")].

(** Collaborators small enough to compute with: the decoder knows the
    texts used below, the encoder keeps the text itself, and two vectors
    score 1 when equal and 0 otherwise. *)
#[local] Instance externals : Externals := {|
  float_str := fun x =>
    if PrimFloat.eqb x 4.5%float then "4.5"
    else if PrimFloat.eqb x 768%float then "768.0" else "0.0";
  repr_compound := fun _ => "[]";
  int_of_str := fun s =>
    if String.eqb s "12" then Some 12 else if String.eqb s "16" then Some 16 else None;
  json_loads := fun s =>
    if String.eqb s "{}" then Some (JObj [])
    else if String.eqb s "[]" then Some (JArr [])
    else if String.eqb s reply_text then Some reply_json
    else None;
  vector := string;
  encode := fun s => s;
  tobytes := list_byte_of_string;
  frombuffer := fun b => match b with [] => None | _ => Some (string_of_list_byte b) end;
  cosine_similarity := fun u v => Some (if String.eqb u v then 1%Q else 0%Q)
|}.

Definition coffee : transaction_row :=
  {| t_description := Some "Coffee"; t_amount := 4.5%float;
     t_created_at := Some "2025-02-01T09:00:00+09:00";
     t_source_id := Some 12; t_destination_id := Some 16; t_category_id := None;
     t_type := Some "withdrawal"; t_source_name := Some "Wallet";
     t_destination_name := Some "Cafe"; t_category_name := None;
     t_last_updated := Some "2025-02-01T09:00:00+09:00" |}.


(** The same transaction with its tag stored once. *)
Definition store_with_one_tag : store :=
  {| accounts := ∅; categories := ∅; bills := ∅;
     transactions := {[ 7 := coffee ]};
     transactions_tags := [{| tag_transaction_id := 7; tag_name := "food" |}];
     transaction_embeddings := ∅ |}.

(** A ledger with two accounts, a category, a bill and one tagged
    transaction, each served on a single page. *)
Definition ledger : firefly_sync.remote :=
  {| firefly_sync.remote_accounts :=
       [firefly_sync.Data
          [{| firefly_sync.ra_id := 12; firefly_sync.ra_name := firefly_sync.Value "Wallet";
              firefly_sync.ra_type := firefly_sync.Value "asset";
              firefly_sync.ra_currency_code := firefly_sync.Value "JPY";
              firefly_sync.ra_updated_at := firefly_sync.Value "2025-02-01T09:00:00+09:00" |};
           {| firefly_sync.ra_id := 16; firefly_sync.ra_name := firefly_sync.Value "Cafe";
              firefly_sync.ra_type := firefly_sync.Value "expense";
              firefly_sync.ra_currency_code := firefly_sync.Value "JPY";
              firefly_sync.ra_updated_at := firefly_sync.Value "2025-02-01T09:00:00+09:00" |}]];
     firefly_sync.remote_categories :=
       [firefly_sync.Data
          [{| firefly_sync.rc_id := 3; firefly_sync.rc_name := firefly_sync.Value "Dining";
              firefly_sync.rc_updated_at := firefly_sync.Value "2025-02-01T09:00:00+09:00" |}]];
     firefly_sync.remote_bills :=
       [firefly_sync.Data
          [{| firefly_sync.rb_id := 5; firefly_sync.rb_name := firefly_sync.Value "Rent";
              firefly_sync.rb_amount_min := Some 768%float;
              firefly_sync.rb_amount_max := Some 768%float;
              firefly_sync.rb_updated_at := firefly_sync.Value "2025-02-01T09:00:00+09:00" |}]];
     firefly_sync.remote_transactions :=
       [firefly_sync.Data
          [{| firefly_sync.rt_id := 7;
              firefly_sync.rt_created_at := firefly_sync.Value "2025-02-01T09:00:00+09:00";
              firefly_sync.rt_updated_at := firefly_sync.Value "2025-02-01T09:00:00+09:00";
              firefly_sync.rt_description := firefly_sync.Value "Coffee";
              firefly_sync.rt_amount := Some 4.5%float;
              firefly_sync.rt_source_id := Some 12; firefly_sync.rt_destination_id := Some 16;
              firefly_sync.rt_category_id := None;
              firefly_sync.rt_type := firefly_sync.Value "withdrawal";
              firefly_sync.rt_source_name := firefly_sync.Value "Wallet";
              firefly_sync.rt_destination_name := firefly_sync.Value "Cafe";
              firefly_sync.rt_category_name := firefly_sync.Null;
              firefly_sync.rt_tags := ["food"] |}]] |}.

(** The store after one sync of the sample ledger. *)
Definition synced_store : store := firefly_sync.main ledger empty_store.

(** An environment whose model answers [reply_text], padded with white
    space, on 3 February 2025. *)
Definition env : intent_filter.environment :=
  {| intent_filter.db := synced_store;
     intent_filter.today := {| intent_filter.year := 2025; intent_filter.month := 2;
                               intent_filter.day := 3 |};
     intent_filter.chat_completion := fun _ => Some (" " +:+ reply_text +:+ PyStr.nl) |}.


(** An approved proposal: a withdrawal from account 12. *)
Definition proposal : intent_filter.proposal :=
  {| intent_filter.pr_type := JStr "withdrawal";
     intent_filter.pr_amount := "768";
     intent_filter.pr_description := JStr "Lunch at Sukiya";
     intent_filter.pr_source_id := JInt 12;
     intent_filter.pr_destination_id := JStr "unknown";
     intent_filter.pr_source_name := Some "Wallet";
     intent_filter.pr_destination_name := Some "";
     intent_filter.pr_currency_code := JStr "JPY";
     intent_filter.pr_date := "2025-02-03";
     intent_filter.pr_category_name := JStr "";
     intent_filter.pr_tags := [JStr "food"];
     intent_filter.pr_bill_name := Some "";
     intent_filter.pr_bill_id := JStr "unknown";
     intent_filter.pr_missing_info := [] |}.

(** The transaction [post_transaction] sends for it. *)
Definition posted : main.transaction :=
  {| main.tx_type := JStr "withdrawal"; main.tx_date := "2025-02-03";
     main.tx_amount := "768"; main.tx_description := JStr "Lunch at Sukiya";
     main.tx_currency_code := JStr "JPY"; main.tx_category_name := JStr "";
     main.tx_source_id := Some 12; main.tx_destination_id := None;
     main.tx_bill_id := None; main.tx_tags := Some [JStr "food"] |}.

(** The transaction record the sample ledger serves. *)
Definition coffee_record : firefly_sync.remote_transaction :=
  {| firefly_sync.rt_id := 7;
     firefly_sync.rt_created_at := firefly_sync.Value "2025-02-01T09:00:00+09:00";
     firefly_sync.rt_updated_at := firefly_sync.Value "2025-02-01T09:00:00+09:00";
     firefly_sync.rt_description := firefly_sync.Value "Coffee";
     firefly_sync.rt_amount := Some 4.5%float;
     firefly_sync.rt_source_id := Some 12; firefly_sync.rt_destination_id := Some 16;
     firefly_sync.rt_category_id := None;
     firefly_sync.rt_type := firefly_sync.Value "withdrawal";
     firefly_sync.rt_source_name := firefly_sync.Value "Wallet";
     firefly_sync.rt_destination_name := firefly_sync.Value "Cafe";
     firefly_sync.rt_category_name := firefly_sync.Null;
     firefly_sync.rt_tags := ["food"] |}.

(** The same environment with a model that answers the empty list. *)
Definition env_empty_list : intent_filter.environment :=
  {| intent_filter.db := synced_store;
     intent_filter.today := intent_filter.today env;
     intent_filter.chat_completion := fun _ => Some "[]" |}.

(** The same proposal with the bill id the model leaves null. *)
Definition proposal_null_bill : intent_filter.proposal :=
  {| intent_filter.pr_type := JStr "withdrawal";
     intent_filter.pr_amount := "768";
     intent_filter.pr_description := JStr "Lunch at Sukiya";
     intent_filter.pr_source_id := JInt 12;
     intent_filter.pr_destination_id := JStr "unknown";
     intent_filter.pr_source_name := Some "Wallet";
     intent_filter.pr_destination_name := Some "";
     intent_filter.pr_currency_code := JStr "JPY";
     intent_filter.pr_date := "2025-02-03";
     intent_filter.pr_category_name := JStr "";
     intent_filter.pr_tags := [JStr "food"];
     intent_filter.pr_bill_name := Some "";
     intent_filter.pr_bill_id := JNull;
     intent_filter.pr_missing_info := [] |}.

(** The proposal [final_prompt.py] tries itself on. *)
Definition test_proposal : list (string * json) :=
  [("intent", JStr "withdrawal"); ("description", JStr "Sukiya expense");
   ("amount", JStr "768"); ("currency", JStr "yen"); ("source", JStr "wallet cash");
   ("destination", JStr "Sukiya"); ("source_id", JStr "12");
   ("destination_id", JStr "0"); ("category_name", JStr ""); ("tags", JArr [])].

(** An account whose name the ledger left null. *)
Definition store_with_unnamed_account : store :=
  {| accounts := {[ 12 := {| acc_name := None; acc_type := Some "asset";
                             acc_currency := Some "JPY"; acc_last_updated := Some "" |} ]};
     categories := ∅; bills := ∅; transactions := ∅; transactions_tags := [];
     transaction_embeddings := ∅ |}.

(** The record of transaction 7 after an edit in the ledger: the source
    id is sent as 0, the destination is left out, and one of the tags is
    empty. *)
Definition coffee_edited : firefly_sync.remote_transaction :=
  {| firefly_sync.rt_id := 7;
     firefly_sync.rt_created_at := firefly_sync.Value "2025-02-01T09:00:00+09:00";
     firefly_sync.rt_updated_at := firefly_sync.Value "2025-02-02T10:30:00+09:00";
     firefly_sync.rt_description := firefly_sync.Value "Coffee, edited";
     firefly_sync.rt_amount := Some 4.5%float;
     firefly_sync.rt_source_id := Some 0; firefly_sync.rt_destination_id := None;
     firefly_sync.rt_category_id := None;
     firefly_sync.rt_type := firefly_sync.Value "withdrawal";
     firefly_sync.rt_source_name := firefly_sync.Value "Wallet";
     firefly_sync.rt_destination_name := firefly_sync.Null;
     firefly_sync.rt_category_name := firefly_sync.Null;
     firefly_sync.rt_tags := ["food"; ""; "cafe"] |}.

Definition tea_record : firefly_sync.remote_transaction :=
  {| firefly_sync.rt_id := 8;
     firefly_sync.rt_created_at := firefly_sync.Value "2025-02-02T15:00:00+09:00";
     firefly_sync.rt_updated_at := firefly_sync.Value "2025-02-02T15:00:00+09:00";
     firefly_sync.rt_description := firefly_sync.Value "Tea";
     firefly_sync.rt_amount := Some 4.5%float;
     firefly_sync.rt_source_id := Some 12; firefly_sync.rt_destination_id := Some 16;
     firefly_sync.rt_category_id := Some 3;
     firefly_sync.rt_type := firefly_sync.Value "withdrawal";
     firefly_sync.rt_source_name := firefly_sync.Value "Wallet";
     firefly_sync.rt_destination_name := firefly_sync.Value "Cafe";
     firefly_sync.rt_category_name := firefly_sync.Value "Dining";
     firefly_sync.rt_tags := [] |}.

(** A ledger that serves, over two pages each, four accounts of which one
    is a reconciliation account and one an initial-balance account, and
    three transaction records of which the first two have the same id. *)
Definition ledger_edge : firefly_sync.remote :=
  {| firefly_sync.remote_accounts :=
       [firefly_sync.Data
          [{| firefly_sync.ra_id := 12; firefly_sync.ra_name := firefly_sync.Value "Wallet";
              firefly_sync.ra_type := firefly_sync.Value "asset";
              firefly_sync.ra_currency_code := firefly_sync.Value "JPY";
              firefly_sync.ra_updated_at := firefly_sync.Value "2025-02-01T09:00:00+09:00" |};
           {| firefly_sync.ra_id := 20;
              firefly_sync.ra_name := firefly_sync.Value "Wallet reconciliation (JPY)";
              firefly_sync.ra_type := firefly_sync.Value "reconciliation";
              firefly_sync.ra_currency_code := firefly_sync.Value "JPY";
              firefly_sync.ra_updated_at := firefly_sync.Value "2025-02-01T09:00:00+09:00" |}];
        firefly_sync.Data
          [{| firefly_sync.ra_id := 21;
              firefly_sync.ra_name := firefly_sync.Value "Initial balance for Wallet";
              firefly_sync.ra_type := firefly_sync.Value "initial-balance";
              firefly_sync.ra_currency_code := firefly_sync.Value "JPY";
              firefly_sync.ra_updated_at := firefly_sync.Value "2025-02-01T09:00:00+09:00" |};
           {| firefly_sync.ra_id := 16; firefly_sync.ra_name := firefly_sync.Value "Cafe";
              firefly_sync.ra_type := firefly_sync.Value "expense";
              firefly_sync.ra_currency_code := firefly_sync.Value "JPY";
              firefly_sync.ra_updated_at := firefly_sync.Value "2025-02-01T09:00:00+09:00" |}]];
     firefly_sync.remote_categories := firefly_sync.remote_categories ledger;
     firefly_sync.remote_bills := firefly_sync.remote_bills ledger;
     firefly_sync.remote_transactions :=
       [firefly_sync.Data [coffee_record; coffee_edited];
        firefly_sync.Data [tea_record]] |}.

End sample.

(** * Properties *)

(** ** Strings *)

#[local] Arguments String.append !_ _ : simpl nomatch.

Lemma append_empty_r (s : string) : s +:+ "" = s.
Proof. induction s as [|c s IH]; simpl; [reflexivity | now rewrite IH]. Qed.

Lemma append_assoc (a b c : string) : (a +:+ b) +:+ c = a +:+ (b +:+ c).
Proof. induction a as [|x a IH]; simpl; [reflexivity | now rewrite IH]. Qed.

Lemma contains_cons_false sub c s :
  PyStr.contains sub (String c s) = false ->
  PyStr.startswith sub (String c s) = false /\ PyStr.contains sub s = false.
Proof.
  cbn [PyStr.contains]. intros Hc. apply orb_false_elim in Hc. exact Hc.
Qed.

(** The marker has no proper prefix that is also a suffix, so an occurrence
    cannot begin inside marker-free text and run into a following marker. *)
Lemma marker_no_straddle (a rest : string) :
  a <> "" ->
  PyStr.contains intent_filter.tags_marker a = false ->
  PyStr.startswith intent_filter.tags_marker
    (a +:+ intent_filter.tags_marker +:+ rest) = false.
Proof.
  intros Hne Hc.
  destruct a as [|c1 a]; [congruence|].
  apply contains_cons_false in Hc. destruct Hc as [Hs _].
  revert Hs. unfold intent_filter.tags_marker.
  destruct a as [|c2 a]; [|destruct a as [|c3 a]; [|destruct a as [|c4 a];
    [|destruct a as [|c5 a]]]];
    cbn [PyStr.startswith String.append]; intros Hs;
    repeat match goal with
           | |- context [Ascii.eqb ?x ?y] =>
               let E := fresh "E" in destruct (Ascii.eqb x y) eqn:E; cbn [andb]
           end;
    try reflexivity; try discriminate.
  all: cbn in *; try discriminate.
  all: repeat match goal with
       | H : context [Ascii.eqb ?x ?y] |- _ =>
           match goal with
           | E : Ascii.eqb x y = _ |- _ => rewrite E in H; cbn [andb] in H
           end
       end; try discriminate.
Qed.

Lemma contains_marker_app (a rest : string) :
  PyStr.contains intent_filter.tags_marker
    (a +:+ intent_filter.tags_marker +:+ rest) = true.
Proof.
  induction a as [|c a IH].
  - reflexivity.
  - simpl. cbn [PyStr.contains]. simpl in IH. rewrite IH. apply orb_true_r.
Qed.

(** Scanning marker-free text followed by a marker closes the current part
    at the marker and resumes right after it. *)
Lemma split_go_marker (a rest cur : string) :
  PyStr.contains intent_filter.tags_marker a = false ->
  PyStr.split_go intent_filter.tags_marker
    (a +:+ intent_filter.tags_marker +:+ rest) 0 cur
  = (cur +:+ a) :: PyStr.split_go intent_filter.tags_marker rest 0 "".
Proof.
  revert cur. induction a as [|c a IH]; intros cur Hc.
  - rewrite append_empty_r. reflexivity.
  - pose proof (marker_no_straddle (String c a) rest) as Hns.
    apply contains_cons_false in Hc as Hc'. destruct Hc' as [_ Hc'].
    simpl in Hns |- *. cbn [PyStr.split_go].
    rewrite Hns by (congruence || assumption).
    simpl in IH. rewrite IH by assumption.
    now rewrite append_assoc.
Qed.

Lemma split_two_markers (a b c : string) :
  PyStr.contains intent_filter.tags_marker a = false ->
  PyStr.contains intent_filter.tags_marker b = false ->
  PyStr.split intent_filter.tags_marker
    (a +:+ intent_filter.tags_marker +:+ b +:+ intent_filter.tags_marker +:+ c)
  = a :: b :: PyStr.split intent_filter.tags_marker c.
Proof.
  intros Ha Hb. unfold PyStr.split.
  rewrite split_go_marker by assumption.
  rewrite split_go_marker by assumption.
  reflexivity.
Qed.

(** ** C10: what [extract_tags_from_input] keeps of an input with several markers *)

(** C10.  When the input is [a], the marker, [b], the marker and any text
    [c], where [a] and [b] hold no marker (so these are the first and the
    second marker), the cleaned input is [a] trimmed and the tags are the
    comma-separated entries of [b] trimmed, each trimmed and lower-cased,
    with empty entries dropped; [c] does not reach either output. *)
Theorem extract_tags_second_marker_cut (a b c : string) :
  PyStr.contains intent_filter.tags_marker a = false ->
  PyStr.contains intent_filter.tags_marker b = false ->
  intent_filter.extract_tags_from_input
    (a +:+ intent_filter.tags_marker +:+ b +:+ intent_filter.tags_marker +:+ c)
  = (PyStr.strip a,
     map (fun t => PyStr.lower (PyStr.strip t))
         (List.filter (fun t => negb (String.eqb (PyStr.strip t) ""))
                      (PyStr.split "," (PyStr.strip b)))).
Proof.
  intros Ha Hb. unfold intent_filter.extract_tags_from_input.
  rewrite contains_marker_app, split_two_markers by assumption.
  cbn [nth]. f_equal. unfold intent_filter.parse_tag_list. f_equal.
  induction (PyStr.split "," (PyStr.strip b)) as [|t l IH]; [reflexivity|].
  rewrite filter_cons. cbn [List.filter]. rewrite <- IH.
  destruct (PyStr.strip t) eqn:E; cbn [PyStr.truthy String.eqb negb];
    case_decide; congruence.
Qed.

Lemma extract_tags_second_marker_cut_witness :
  PyStr.contains intent_filter.tags_marker "lunch " = false /\
  PyStr.contains intent_filter.tags_marker " Food , ,Out " = false /\
  intent_filter.extract_tags_from_input "lunch tags: Food , ,Out tags:late, x"
  = ("lunch", ["food"; "out"]).
Proof.
  split; [reflexivity|]. split; [reflexivity|].
  exact (extract_tags_second_marker_cut "lunch " " Food , ,Out " "late, x"
           eq_refl eq_refl).
Defined.

(** ** Upserts into a keyed table *)

Section FoldInsert.
Context {A V : Type} (key : A -> Z) (val : A -> V).

Lemma upsert_all_notin rows m k :
  ~ In k (map key rows) -> upsert_all key val rows m !! k = m !! k.
Proof.
  revert m. induction rows as [|r rows IH]; intros m Hk; [reflexivity|].
  cbn in Hk |- *. unfold upsert_all in IH. rewrite IH by tauto.
  apply lookup_insert_ne. tauto.
Qed.

Lemma upsert_all_in rows m r :
  NoDup (map key rows) -> In r rows ->
  upsert_all key val rows m !! key r = Some (val r).
Proof.
  revert m. induction rows as [|r' rows IH]; intros m Hnd Hin; [destruct Hin|].
  cbn in Hnd. apply NoDup_cons in Hnd. destruct Hnd as [Hfresh Hnd].
  rewrite list_elem_of_In in Hfresh.
  destruct Hin as [-> | Hin].
  - cbn. fold (upsert_all key val rows (<[key r := val r]> m)).
    rewrite upsert_all_notin by assumption. apply lookup_insert_eq.
  - cbn. now apply IH.
Qed.

End FoldInsert.

Lemma NoDup_map_filter {A B} (f : A -> B) (p : A -> bool) (l : list A) :
  NoDup (map f l) -> NoDup (map f (List.filter p l)).
Proof.
  induction l as [|x l IH]; cbn; intros Hnd; [constructor|].
  apply NoDup_cons in Hnd. destruct Hnd as [Hx Hnd].
  destruct (p x); cbn; [|now apply IH].
  apply NoDup_cons. split; [|now apply IH].
  rewrite list_elem_of_In in Hx |- *.
  intros Hin. apply Hx. apply in_map_iff in Hin. destruct Hin as (y & Hy & Hin).
  apply in_map_iff. exists y. split; [assumption|].
  apply List.filter_In in Hin. tauto.
Qed.

(** ** The embedding backfill *)

Section Backfill.
Context `{Externals}.

Lemma backfill_fold rows st :
  fold_left (fun s r => firefly_sync.store_embedding r s) rows st
  = firefly_sync.set_transaction_embeddings st
      (upsert_all firefly_sync.p_id embedding_of rows (transaction_embeddings st)).
Proof.
  revert st. induction rows as [|r rows IH]; intros st.
  - now destruct st.
  - cbn. rewrite IH. reflexivity.
Qed.

Lemma backfill_embeddings st :
  transaction_embeddings (firefly_sync.store_transaction_embeddings st)
  = upsert_all firefly_sync.p_id embedding_of (firefly_sync.pending_rows st)
      (transaction_embeddings st).
Proof.
  unfold firefly_sync.store_transaction_embeddings. now rewrite backfill_fold.
Qed.

Lemma pending_ids st :
  map firefly_sync.p_id (firefly_sync.pending_rows st)
  = map fst (List.filter
               (fun entry => bool_decide (transaction_embeddings st !! entry.1 = None))
               (scan (transactions st))).
Proof.
  unfold firefly_sync.pending_rows. rewrite map_map. apply map_ext.
  now intros [tid t].
Qed.

Lemma pending_ids_NoDup st :
  NoDup (map firefly_sync.p_id (firefly_sync.pending_rows st)).
Proof.
  rewrite pending_ids. apply NoDup_map_filter.
  exact (NoDup_fst_map_to_list (transactions st)).
Qed.

Lemma pending_row_in st tid t :
  transactions st !! tid = Some t ->
  transaction_embeddings st !! tid = None ->
  In (firefly_sync.pending_of st (tid, t)) (firefly_sync.pending_rows st).
Proof.
  intros Ht He. unfold firefly_sync.pending_rows. apply in_map.
  apply List.filter_In. split.
  - apply list_elem_of_In. unfold scan. now apply elem_of_map_to_list.
  - cbn. now apply bool_decide_eq_true.
Qed.

End Backfill.

(** ** C7: the text rendered for the embedding *)



Lemma text_truthy_cases (t : text) :
  (text_truthy t = true /\ exists c s, t = Some (String c s))
  \/ (text_truthy t = false /\ (t = None \/ t = Some "")).
Proof.
  destruct t as [[|c s]|]; cbn; eauto 6.
Qed.

Section Rendering.
Context `{Externals}.



End Rendering.


(** ** Stable sorting *)

Section SortBy.
Context {A : Type} (leb : A -> A -> bool).

Lemma insert_by_perm x l : Permutation (insert_by leb x l) (x :: l).
Proof.
  induction l as [|y l IH]; cbn; [reflexivity|].
  destruct (leb x y); [reflexivity|].
  rewrite IH. apply perm_swap.
Qed.

Lemma sort_by_perm l : Permutation (sort_by leb l) l.
Proof.
  induction l as [|x l IH]; cbn; [reflexivity|].
  fold (sort_by leb l). rewrite insert_by_perm. now rewrite IH.
Qed.

Lemma sort_by_In x l : In x (sort_by leb l) <-> In x l.
Proof.
  split; apply Permutation_in; [|symmetry]; apply sort_by_perm.
Qed.

Lemma sort_by_NoDup l : NoDup l -> NoDup (sort_by leb l).
Proof. intros Hnd. now rewrite sort_by_perm. Qed.

Lemma sort_by_nil l : sort_by leb l = [] -> l = [].
Proof.
  intros Hs. apply Permutation_nil. rewrite <- Hs. apply sort_by_perm.
Qed.

End SortBy.

(** ** [SELECT DISTINCT] *)

Lemma existsb_eqb_In n (seen : list string) :
  existsb (String.eqb n) seen = true <-> In n seen.
Proof.
  rewrite existsb_exists. split.
  - intros (m & Hm & He). apply String.eqb_eq in He. now subst.
  - intros Hn. exists n. split; [assumption | apply String.eqb_refl].
Qed.

Lemma distinct_fold names : forall seen,
  NoDup seen ->
  let out :=
    fold_left (fun seen n => if existsb (String.eqb n) seen then seen else seen ++ [n])
              names seen in
  NoDup out /\ forall n, In n out <-> In n seen \/ In n names.
Proof.
  induction names as [|m names IH]; intros seen Hnd; cbn.
  - split; [assumption | tauto].
  - destruct (existsb (String.eqb m) seen) eqn:E.
    + destruct (IH seen Hnd) as [H1 H2]. split; [exact H1|].
      intros n. rewrite H2. apply existsb_eqb_In in E.
      split; [tauto|]. intros [?|[<-|?]]; tauto.
    + assert (Hm : ~ In m seen).
      { intros Hin. apply existsb_eqb_In in Hin. congruence. }
      assert (Hnd' : NoDup (seen ++ [m])).
      { apply NoDup_app. split; [assumption|]. split.
        - intros x Hx Hx'. apply list_elem_of_In in Hx.
          apply list_elem_of_singleton in Hx'. now subst.
        - apply NoDup_singleton. }
      destruct (IH _ Hnd') as [H1 H2]. split; [exact H1|].
      intros n. rewrite H2, in_app_iff. cbn. tauto.
Qed.

Lemma distinct_NoDup names : NoDup (context_loader.distinct names).
Proof. apply (distinct_fold names []). constructor. Qed.

Lemma distinct_In names n : In n (context_loader.distinct names) <-> In n names.
Proof.
  destruct (distinct_fold names [] (NoDup_nil_2 (A:=string))) as [_ Hin].
  unfold context_loader.distinct. rewrite Hin. cbn. tauto.
Qed.

Lemma NoDup_list_filter {A} (p : A -> bool) (l : list A) :
  NoDup l -> NoDup (List.filter p l).
Proof.
  intros Hnd. rewrite <- (map_id (List.filter p l)).
  apply NoDup_map_filter. now rewrite map_id.
Qed.

Lemma load_tags_NoDup st : NoDup (context_loader.load_tags st).
Proof.
  unfold context_loader.load_tags. apply NoDup_list_filter, sort_by_NoDup, distinct_NoDup.
Qed.

Lemma load_tags_In st n :
  In n (context_loader.load_tags st)
  <-> n <> "" /\ exists r, In r (transactions_tags st) /\ tag_name r = n.
Proof.
  unfold context_loader.load_tags.
  rewrite List.filter_In, sort_by_In, distinct_In, in_map_iff.
  assert (Ht : PyStr.truthy n = true <-> n <> "") by (destruct n; cbn; split; congruence).
  rewrite Ht. split.
  - intros [(r & Hr & Hin) Hn]. eauto.
  - intros [Hn (r & Hin & Hr)]. eauto.
Qed.

(** ** C9: where duplicate tag rows are removed on reading *)


Section TagReads.
Context `{Externals}.



End TagReads.


(** ** Re-applying a batch of upserts *)

Lemma upsert_all_app {A V} (key : A -> Z) (val : A -> V) rows rows' (m : gmap Z V) :
  upsert_all key val (rows ++ rows') m = upsert_all key val rows' (upsert_all key val rows m).
Proof. unfold upsert_all. apply fold_left_app. Qed.

(** On a key of the batch the outcome does not depend on the table the
    batch is applied to. *)
Lemma upsert_all_agree {A V} (key : A -> Z) (val : A -> V) rows (m m' : gmap Z V) k :
  In k (map key rows) \/ m !! k = m' !! k ->
  upsert_all key val rows m !! k = upsert_all key val rows m' !! k.
Proof.
  revert m m'. induction rows as [|r rows IH]; intros m m' Hk; cbn.
  - destruct Hk as [[]|Hk]. exact Hk.
  - apply IH. destruct (decide (key r = k)) as [<-|Hne].
    + right. now rewrite !lookup_insert_eq.
    + destruct Hk as [[Hk|Hk]|Hk]; [congruence | now left | right].
      now rewrite !lookup_insert_ne.
Qed.

Lemma upsert_all_idem {A V} (key : A -> Z) (val : A -> V) rows (m : gmap Z V) :
  upsert_all key val rows (upsert_all key val rows m) = upsert_all key val rows m.
Proof.
  apply map_eq. intros k. apply upsert_all_agree.
  destruct (decide (k ∈ map key rows)) as [Hin|Hout];
    rewrite list_elem_of_In in *; [now left | right].
  now apply upsert_all_notin.
Qed.

Lemma upsert_all_is_Some {A V} (key : A -> Z) (val : A -> V) rows (m : gmap Z V) k :
  is_Some (m !! k) -> is_Some (upsert_all key val rows m !! k).
Proof.
  revert m. induction rows as [|r rows IH]; intros m Hk; [exact Hk|].
  cbn. apply IH. destruct (decide (key r = k)) as [<-|Hne].
  - rewrite lookup_insert_eq. eauto.
  - now rewrite lookup_insert_ne.
Qed.

(** ** The paging loop and the four syncs *)

Lemma sync_pages_served {A} (process : A -> store -> store) replies st :
  firefly_sync.sync_pages process replies st
  = fold_left (fun s item => process item s) (served replies) st.
Proof.
  revert st. induction replies as [|[|[|item items]] later IH]; intros st;
    try reflexivity.
  cbn [firefly_sync.sync_pages served]. rewrite fold_left_app. apply IH.
Qed.

Lemma store_eta st :
  {| accounts := accounts st; categories := categories st; bills := bills st;
     transactions := transactions st; transactions_tags := transactions_tags st;
     transaction_embeddings := transaction_embeddings st |} = st.
Proof. now destruct st. Qed.

Lemma sync_accounts_spec replies st :
  firefly_sync.sync_accounts replies st
  = firefly_sync.set_accounts st
      (upsert_all firefly_sync.ra_id account_row_of
         (List.filter mirrored (served replies)) (accounts st)).
Proof.
  unfold firefly_sync.sync_accounts. rewrite sync_pages_served.
  generalize (served replies) as items. intros items. revert st.
  induction items as [|item items IH]; intros st.
  - cbn. unfold firefly_sync.set_accounts. now rewrite store_eta.
  - cbn [fold_left List.filter]. rewrite IH.
    unfold firefly_sync.account_item, mirrored.
    destruct (firefly_sync.skipped_type _); reflexivity.
Qed.

Lemma sync_categories_spec replies st :
  firefly_sync.sync_categories replies st
  = firefly_sync.set_categories st
      (upsert_all firefly_sync.rc_id category_row_of (served replies) (categories st)).
Proof.
  unfold firefly_sync.sync_categories. rewrite sync_pages_served.
  generalize (served replies) as items. intros items. revert st.
  induction items as [|item items IH]; intros st.
  - cbn. unfold firefly_sync.set_categories. now rewrite store_eta.
  - cbn [fold_left]. rewrite IH. reflexivity.
Qed.

Lemma sync_bills_spec replies st :
  firefly_sync.sync_bills replies st
  = firefly_sync.set_bills st
      (upsert_all firefly_sync.rb_id bill_row_of (served replies) (bills st)).
Proof.
  unfold firefly_sync.sync_bills. rewrite sync_pages_served.
  generalize (served replies) as items. intros items. revert st.
  induction items as [|item items IH]; intros st.
  - cbn. unfold firefly_sync.set_bills. now rewrite store_eta.
  - cbn [fold_left]. rewrite IH. reflexivity.
Qed.

Lemma insert_tags_spec trans_id tags rows :
  firefly_sync.insert_tags trans_id tags rows
  = rows ++ map (fun tag => {| tag_transaction_id := trans_id; tag_name := tag |})
                (List.filter PyStr.truthy tags).
Proof.
  unfold firefly_sync.insert_tags. revert rows.
  induction tags as [|tag tags IH]; intros rows; cbn.
  - now rewrite app_nil_r.
  - rewrite IH. destruct (PyStr.truthy tag); [|reflexivity].
    cbn. now rewrite <- app_assoc.
Qed.

Lemma sync_transactions_spec replies st :
  firefly_sync.sync_transactions replies st
  = firefly_sync.set_transactions_tags
      (firefly_sync.set_transactions st
         (upsert_all firefly_sync.rt_id transaction_row_of (served replies)
            (transactions st)))
      (transactions_tags st ++ emitted_tags (served replies)).
Proof.
  unfold firefly_sync.sync_transactions. rewrite sync_pages_served.
  generalize (served replies) as items. intros items. revert st.
  induction items as [|item items IH]; intros st.
  - cbn. rewrite app_nil_r.
    unfold firefly_sync.set_transactions_tags, firefly_sync.set_transactions. cbn.
    now rewrite store_eta.
  - cbn [fold_left]. rewrite IH.
    unfold firefly_sync.transaction_item. rewrite insert_tags_spec.
    unfold firefly_sync.set_transactions_tags, firefly_sync.set_transactions,
      emitted_tags. cbn. now rewrite <- app_assoc.
Qed.

(** ** C1: a second run of the sync engine *)

Lemma filter_none {A} (p : A -> bool) (l : list A) :
  (forall x, In x l -> p x = false) -> List.filter p l = [].
Proof.
  induction l as [|x l IH]; intros Hall; [reflexivity|].
  cbn. rewrite (Hall x) by now left. apply IH. intros y Hy. apply Hall. now right.
Qed.

Section SecondRun.
Context `{Externals}.

Lemma backfill_spec st :
  firefly_sync.store_transaction_embeddings st
  = firefly_sync.set_transaction_embeddings st
      (upsert_all firefly_sync.p_id embedding_of (firefly_sync.pending_rows st)
         (transaction_embeddings st)).
Proof. apply backfill_fold. Qed.

(** After the backfill every transaction has an embedding. *)
Lemma backfill_complete st tid t :
  transactions st !! tid = Some t ->
  is_Some (transaction_embeddings (firefly_sync.store_transaction_embeddings st) !! tid).
Proof.
  intros Ht. rewrite backfill_embeddings.
  destruct (transaction_embeddings st !! tid) as [e|] eqn:He.
  - apply upsert_all_is_Some. rewrite He. eauto.
  - pose proof (upsert_all_in firefly_sync.p_id embedding_of
                  (firefly_sync.pending_rows st) (transaction_embeddings st)
                  (firefly_sync.pending_of st (tid, t))
                  (pending_ids_NoDup st) (pending_row_in st tid t Ht He)) as Hl.
    change (firefly_sync.p_id (firefly_sync.pending_of st (tid, t))) with tid in Hl.
    rewrite Hl. eauto.
Qed.

(** With nothing left to embed the backfill changes nothing. *)
Lemma backfill_noop st :
  (forall tid t, transactions st !! tid = Some t ->
                 is_Some (transaction_embeddings st !! tid)) ->
  firefly_sync.store_transaction_embeddings st = st.
Proof.
  intros Hall. unfold firefly_sync.store_transaction_embeddings.
  assert (Hnone : firefly_sync.pending_rows st = []).
  { unfold firefly_sync.pending_rows.
    assert (Hf : List.filter
                   (fun entry : Z * transaction_row =>
                      bool_decide (transaction_embeddings st !! entry.1 = None))
                   (scan (transactions st)) = []).
    { apply filter_none. intros [tid t] Hin. cbn.
      apply list_elem_of_In, elem_of_map_to_list in Hin.
      destruct (Hall tid t Hin) as [e He]. rewrite He.
      now apply bool_decide_eq_false. }
    now rewrite Hf. }
  now rewrite Hnone.
Qed.

(** C1, amended.  A second run over the same remote data leaves the
    accounts, categories, bills, transactions and embeddings tables exactly
    as the first run left them, so they hold one row per remote id and gain
    none; the tag table is appended to: it gains one row for every
    non-empty tag of every transaction served, and the total row count
    grows by that number. *)
Theorem second_run_appends_only_tags (r : firefly_sync.remote) (st : store) :
  let s1 := firefly_sync.main r st in
  let s2 := firefly_sync.main r s1 in
  let again := emitted_tags (served (firefly_sync.remote_transactions r)) in
  accounts s2 = accounts s1
  /\ categories s2 = categories s1
  /\ bills s2 = bills s1
  /\ transactions s2 = transactions s1
  /\ transaction_embeddings s2 = transaction_embeddings s1
  /\ transactions_tags s2 = transactions_tags s1 ++ again
  /\ row_count s2 = (row_count s1 + length again)%nat.
Proof.
  intros s1 s2 again.
  set (synced := fun s =>
         firefly_sync.sync_transactions (firefly_sync.remote_transactions r)
           (firefly_sync.sync_bills (firefly_sync.remote_bills r)
              (firefly_sync.sync_categories (firefly_sync.remote_categories r)
                 (firefly_sync.sync_accounts (firefly_sync.remote_accounts r) s)))).
  assert (Hs1 : s1 = firefly_sync.store_transaction_embeddings (synced st)) by reflexivity.
  assert (Hsynced : forall s,
            accounts (synced s)
            = upsert_all firefly_sync.ra_id account_row_of
                (List.filter mirrored (served (firefly_sync.remote_accounts r))) (accounts s)
            /\ categories (synced s)
               = upsert_all firefly_sync.rc_id category_row_of
                   (served (firefly_sync.remote_categories r)) (categories s)
            /\ bills (synced s)
               = upsert_all firefly_sync.rb_id bill_row_of
                   (served (firefly_sync.remote_bills r)) (bills s)
            /\ transactions (synced s)
               = upsert_all firefly_sync.rt_id transaction_row_of
                   (served (firefly_sync.remote_transactions r)) (transactions s)
            /\ transaction_embeddings (synced s) = transaction_embeddings s
            /\ transactions_tags (synced s) = transactions_tags s ++ again).
  { intros s. unfold synced.
    rewrite sync_transactions_spec, sync_bills_spec, sync_categories_spec,
      sync_accounts_spec. cbn. repeat split; reflexivity. }
  assert (Hfill : forall s,
            accounts (firefly_sync.store_transaction_embeddings s) = accounts s
            /\ categories (firefly_sync.store_transaction_embeddings s) = categories s
            /\ bills (firefly_sync.store_transaction_embeddings s) = bills s
            /\ transactions (firefly_sync.store_transaction_embeddings s) = transactions s
            /\ transactions_tags (firefly_sync.store_transaction_embeddings s)
               = transactions_tags s).
  { intros s. rewrite backfill_spec. cbn. repeat split; reflexivity. }
  destruct (Hsynced st) as (Ha & Hc & Hb & Ht & He & Hg).
  destruct (Hfill (synced st)) as (Fa & Fc & Fb & Ft & Fg).
  destruct (Hsynced s1) as (Ha2 & Hc2 & Hb2 & Ht2 & He2 & Hg2).
  assert (Ht1 : transactions (synced s1) = transactions s1).
  { rewrite Ht2, Hs1, Ft, Ht. apply upsert_all_idem. }
  assert (Hnoop : firefly_sync.store_transaction_embeddings (synced s1) = synced s1).
  { apply backfill_noop. intros tid t Hin. rewrite He2, Hs1.
    rewrite Ht1, Hs1, Ft in Hin. now apply backfill_complete with t. }
  assert (Hs2 : s2 = synced s1).
  { unfold s2. change (firefly_sync.main r s1)
      with (firefly_sync.store_transaction_embeddings (synced s1)). exact Hnoop. }
  assert (Eacc : accounts s2 = accounts s1).
  { rewrite Hs2, Ha2, Hs1, Fa, Ha. apply upsert_all_idem. }
  assert (Ecat : categories s2 = categories s1).
  { rewrite Hs2, Hc2, Hs1, Fc, Hc. apply upsert_all_idem. }
  assert (Ebill : bills s2 = bills s1).
  { rewrite Hs2, Hb2, Hs1, Fb, Hb. apply upsert_all_idem. }
  assert (Etrans : transactions s2 = transactions s1) by now rewrite Hs2.
  assert (Eemb : transaction_embeddings s2 = transaction_embeddings s1)
    by now rewrite Hs2.
  assert (Etags : transactions_tags s2 = transactions_tags s1 ++ again)
    by now rewrite Hs2.
  repeat (split; [assumption|]).
  unfold row_count. rewrite Eacc, Ecat, Ebill, Etrans, Eemb, Etags, length_app. lia.
Qed.

End SecondRun.

(** C1, as stated, fails.  For a ledger serving one transaction tagged
    [food], the first run from an empty store leaves seven rows and the
    second run leaves eight: the tag row is inserted again. *)
Lemma second_run_grows_tag_table :
  let s1 := @firefly_sync.main sample.externals sample.ledger empty_store in
  let s2 := @firefly_sync.main sample.externals sample.ledger s1 in
  row_count s1 = 7%nat /\ row_count s2 = 8%nat
  /\ length (transactions_tags s1) = 1%nat /\ length (transactions_tags s2) = 2%nat.
Proof. vm_compute. repeat split; reflexivity. Qed.

(** ** C6: the prompt context *)

Lemma str_of_Z_inj n m : PyStr.str_of_Z n = PyStr.str_of_Z m -> n = m.
Proof.
  unfold PyStr.str_of_Z. intros Heq. apply DecimalZ.to_int_inj.
  assert (Hs : Some (Z.to_int n) = Some (Z.to_int m)).
  { rewrite <- !NilEmpty.isi. now rewrite Heq. }
  congruence.
Qed.

Lemma dict_set_fresh {K V} (eqb : K -> K -> bool) (k : K) (v : V) (d : list (K * V)) :
  (forall e, In e d -> eqb e.1 k = false) ->
  context_loader.dict_set eqb k v d = d ++ [(k, v)].
Proof.
  induction d as [|[k' v'] d IH]; intros Hf; [reflexivity|].
  pose proof (Hf (k', v') (or_introl eq_refl)) as Hk. cbn in Hk |- *. rewrite Hk.
  f_equal. apply IH. intros e He. apply Hf. now right.
Qed.

(** Filling a dict from rows with pairwise different keys lists the rows
    in order. *)
Lemma dict_fill {A K V} (eqb : K -> K -> bool) (key : A -> K) (val : A -> V)
      (rows : list A) :
  (forall a b, eqb (key a) (key b) = true -> key a = key b) ->
  NoDup (map key rows) ->
  forall d,
    (forall e a, In e d -> In a rows -> eqb e.1 (key a) = false) ->
    fold_left (fun d a => context_loader.dict_set eqb (key a) (val a) d) rows d
    = d ++ map (fun a => (key a, val a)) rows.
Proof.
  intros Heqb. induction rows as [|a rows IH]; intros Hnd d Hf; cbn.
  - now rewrite app_nil_r.
  - apply NoDup_cons in Hnd. destruct Hnd as [Ha Hnd].
    rewrite dict_set_fresh by (intros e He; apply (Hf e a He); now left).
    rewrite IH; [now rewrite <- app_assoc | assumption |].
    intros e b He Hb. apply in_app_iff in He. destruct He as [He|[<-|[]]].
    + apply (Hf e b He). now right.
    + cbn. destruct (eqb (key a) (key b)) eqn:E; [|reflexivity].
      exfalso. apply Ha. apply Heqb in E. rewrite E.
      apply list_elem_of_In. now apply in_map.
Qed.

Lemma NoDup_map_perm {A B} (f : A -> B) (l l' : list A) :
  Permutation l l' -> NoDup (map f l') -> NoDup (map f l).
Proof. intros Hp Hnd. now rewrite (Permutation_map f Hp). Qed.

Lemma load_accounts_rows st :
  context_loader.load_accounts st
  = map (fun entry : Z * account_row => (PyStr.str_of_Z entry.1, acc_name entry.2))
        (sort_by (fun a b => text_leb (acc_name a.2) (acc_name b.2))
                 (List.filter (fun entry => context_loader.is_asset entry.2)
                              (scan (accounts st)))).
Proof.
  unfold context_loader.load_accounts.
  rewrite (dict_fill String.eqb (fun entry : Z * account_row => PyStr.str_of_Z entry.1)
             (fun entry => acc_name entry.2)); [reflexivity | | | ].
  - intros a b Hab. now apply String.eqb_eq.
  - rewrite <- (map_map fst PyStr.str_of_Z).
    apply NoDup_fmap_2; [intros x y; apply str_of_Z_inj|].
    apply NoDup_map_perm with
      (l' := List.filter (fun entry => context_loader.is_asset entry.2) (scan (accounts st)));
      [apply sort_by_perm|].
    apply NoDup_map_filter. exact (NoDup_fst_map_to_list (accounts st)).
  - intros e a [].
Qed.

Lemma load_bills_rows st :
  context_loader.load_bills st
  = map (fun entry : Z * bill_row => (entry.1, bill_name entry.2))
        (sort_by (fun a b => text_leb (bill_name a.2) (bill_name b.2)) (scan (bills st))).
Proof.
  unfold context_loader.load_bills.
  rewrite (dict_fill Z.eqb (fun entry : Z * bill_row => entry.1)
             (fun entry => bill_name entry.2)); [reflexivity | | | ].
  - intros a b Hab. now apply Z.eqb_eq.
  - apply NoDup_map_perm with (l' := scan (bills st)); [apply sort_by_perm|].
    exact (NoDup_fst_map_to_list (bills st)).
  - intros e a [].
Qed.

Lemma fold_lines {A} (line : A -> string) (items : list A) (header : string) :
  fold_left (fun sec item => sec +:+ line item) items header
  = header +:+ String.concat "" (map line items).
Proof.
  revert header. induction items as [|x items IH]; intros header; cbn.
  - now rewrite append_empty_r.
  - rewrite IH, append_assoc. destruct items; cbn; [now rewrite append_empty_r|].
    reflexivity.
Qed.

Lemma section_of_lines {A} (line : A -> string) (items : list A) header placeholder :
  match items with
  | [] => header +:+ placeholder
  | _ => fold_left (fun sec item => sec +:+ line item) items header
  end = section_text header placeholder (map line items).
Proof.
  destruct items as [|x items]; [reflexivity|].
  rewrite fold_lines. reflexivity.
Qed.

Lemma is_asset_iff row : context_loader.is_asset row = true <-> acc_type row = Some "asset".
Proof.
  unfold context_loader.is_asset. destruct (acc_type row) as [s|]; [|split; discriminate].
  rewrite String.eqb_eq. split; congruence.
Qed.

Lemma load_accounts_In st k name :
  In (k, name) (context_loader.load_accounts st)
  <-> exists id row, accounts st !! id = Some row /\ acc_type row = Some "asset"
                     /\ k = PyStr.str_of_Z id /\ name = acc_name row.
Proof.
  rewrite load_accounts_rows, in_map_iff. split.
  - intros ([id row] & Heq & Hin). apply sort_by_In, List.filter_In in Hin.
    destruct Hin as [Hin Hasset]. apply list_elem_of_In, elem_of_map_to_list in Hin.
    apply is_asset_iff in Hasset. cbn [fst snd] in Heq, Hasset.
    injection Heq as <- <-. exists id, row. repeat split; assumption.
  - intros (id & row & Hrow & Hasset & -> & ->). exists (id, row). split; [reflexivity|].
    apply sort_by_In, List.filter_In. split.
    + apply list_elem_of_In. unfold scan. now apply elem_of_map_to_list.
    + now apply is_asset_iff.
Qed.

Lemma load_categories_In st c :
  In c (context_loader.load_categories st)
  <-> c <> "" /\ exists id row, categories st !! id = Some row /\ cat_name row = Some c.
Proof.
  unfold context_loader.load_categories.
  rewrite <- list_elem_of_In, list_elem_of_omap. split.
  - intros (name & Hin & Hname). apply list_elem_of_In, sort_by_In, in_map_iff in Hin.
    destruct Hin as ([id row] & Hrow & Hin).
    apply list_elem_of_In, elem_of_map_to_list in Hin. cbn in Hrow. subst name.
    destruct (cat_name row) as [[|ch s]|] eqn:E; cbn in Hname; try discriminate.
    injection Hname as <-. split; [discriminate|]. eauto.
  - intros (Hc & id & row & Hrow & Hname). exists (Some c). split.
    + apply list_elem_of_In, sort_by_In, in_map_iff. exists (id, row).
      split; [exact Hname|]. apply list_elem_of_In. unfold scan.
      now apply elem_of_map_to_list.
    + destruct c; [congruence | reflexivity].
Qed.

Lemma load_bills_In st id name :
  In (id, name) (context_loader.load_bills st)
  <-> exists row, bills st !! id = Some row /\ name = bill_name row.
Proof.
  rewrite load_bills_rows, in_map_iff. split.
  - intros ([id' row] & Heq & Hin). apply sort_by_In in Hin.
    apply list_elem_of_In, elem_of_map_to_list in Hin. cbn [fst snd] in Heq.
    injection Heq as <- <-. exists row. split; [assumption | reflexivity].
  - intros (row & Hrow & ->). exists (id, row). split; [reflexivity|].
    apply sort_by_In, list_elem_of_In. unfold scan. now apply elem_of_map_to_list.
Qed.

(** C6, as stated, fails.  After a sync of the sample ledger the store
    mirrors the asset account 12 (Wallet) and the expense account 16
    (Cafe); the context lists Wallet alone. *)
Lemma expense_account_not_in_context :
  let st := @firefly_sync.main sample.externals sample.ledger empty_store in
  acc_name <$> accounts st !! 16 = Some (Some "Cafe")
  /\ acc_type <$> accounts st !! 16 = Some (Some "expense")
  /\ context_loader.load_accounts st = [("12", Some "Wallet")]
  /\ context_loader.build_prompt_context st
     = "## KNOWN ACCOUNTS:" +:+ PyStr.nl
       +:+ "  - " +:+ PyStr.dq +:+ "Wallet" +:+ PyStr.dq +:+ " → 12" +:+ PyStr.nl
       +:+ PyStr.nl
       +:+ "## KNOWN CATEGORIES:" +:+ PyStr.nl +:+ "  - Dining" +:+ PyStr.nl
       +:+ PyStr.nl
       +:+ "## KNOWN TAGS:" +:+ PyStr.nl +:+ "  - food" +:+ PyStr.nl
       +:+ PyStr.nl
       +:+ "## KNOWN BILLS:" +:+ PyStr.nl
       +:+ "  - " +:+ PyStr.dq +:+ "Rent" +:+ PyStr.dq +:+ " → 5" +:+ PyStr.nl.
Proof. vm_compute. repeat split; reflexivity. Qed.

(** C6, amended.  The context is one text of four labelled sections in the
    order accounts, categories, tags, bills, separated by a line feed;
    each section is its header followed by one line per entry, or by its
    "none found" placeholder when it has no entry.  The account entries
    are the name and id of exactly the mirrored accounts of type [asset];
    the category entries are the non-empty category names; the tag entries
    are the non-empty tag names, each once; the bill entries are the name
    and id of every bill. *)
Theorem prompt_context_sections (st : store) :
  context_loader.build_prompt_context st
  = section_text context_loader.accounts_header context_loader.no_accounts
      (map context_loader.account_line (context_loader.load_accounts st))
    +:+ PyStr.nl
    +:+ section_text context_loader.categories_header context_loader.no_categories
          (map context_loader.flat_line (context_loader.load_categories st))
    +:+ PyStr.nl
    +:+ section_text context_loader.tags_header context_loader.no_tags
          (map context_loader.flat_line (context_loader.load_tags st))
    +:+ PyStr.nl
    +:+ section_text context_loader.bills_header context_loader.no_bills
          (map context_loader.bill_line (context_loader.load_bills st))
  /\ (forall k name,
        In (k, name) (context_loader.load_accounts st)
        <-> exists id row, accounts st !! id = Some row /\ acc_type row = Some "asset"
                           /\ k = PyStr.str_of_Z id /\ name = acc_name row)
  /\ (forall c,
        In c (context_loader.load_categories st)
        <-> c <> "" /\ exists id row, categories st !! id = Some row
                                      /\ cat_name row = Some c)
  /\ NoDup (context_loader.load_tags st)
  /\ (forall n,
        In n (context_loader.load_tags st)
        <-> n <> "" /\ exists r, In r (transactions_tags st) /\ tag_name r = n)
  /\ (forall id name,
        In (id, name) (context_loader.load_bills st)
        <-> exists row, bills st !! id = Some row /\ name = bill_name row).
Proof.
  split.
  - unfold context_loader.build_prompt_context.
    rewrite (section_of_lines context_loader.account_line),
      !(section_of_lines context_loader.flat_line),
      (section_of_lines context_loader.bill_line).
    reflexivity.
  - split; [apply load_accounts_In|]. split; [apply load_categories_In|].
    split; [apply load_tags_NoDup|]. split; [apply load_tags_In | apply load_bills_In].
Qed.

(** ** Sortedness and stability of [sort_by] *)

Section SortBySorted.
Context {A : Type} (leb : A -> A -> bool).
Hypothesis leb_total : forall x y, leb x y = false -> leb y x = true.
Hypothesis leb_trans : forall x y z, leb x y = true -> leb y z = true -> leb x z = true.

Lemma insert_by_sorted x l :
  StronglySorted (fun a b => leb a b = true) l ->
  StronglySorted (fun a b => leb a b = true) (insert_by leb x l).
Proof.
  induction l as [|y l IH]; intros Hs; cbn.
  - repeat constructor.
  - apply StronglySorted_inv in Hs. destruct Hs as [Hl Hy].
    destruct (leb x y) eqn:E.
    + constructor; [constructor; assumption|].
      constructor; [assumption|].
      eapply List.Forall_impl; [|exact Hy]. intros z Hz. now apply leb_trans with y.
    + constructor; [now apply IH|].
      rewrite List.Forall_forall. intros z Hz.
      apply (Permutation_in _ (insert_by_perm leb x l)) in Hz.
      destruct Hz as [<-|Hz]; [now apply leb_total|].
      rewrite List.Forall_forall in Hy. now apply Hy.
Qed.

Lemma sort_by_sorted l : StronglySorted (fun a b => leb a b = true) (sort_by leb l).
Proof.
  induction l as [|x l IH]; cbn; [constructor|]. now apply insert_by_sorted.
Qed.

End SortBySorted.

Lemma StronglySorted_weaken {A} (R R' : A -> A -> Prop) (l : list A) :
  (forall x y, R x y -> R' x y) -> StronglySorted R l -> StronglySorted R' l.
Proof.
  intros HR. induction 1 as [|x l Hs IH Hx]; constructor; [assumption|].
  eapply List.Forall_impl; [|exact Hx]. intros y. apply HR.
Qed.

(** Elements that may all precede one another (equal keys) keep their
    relative order. *)
Lemma insert_by_stable {A} (leb : A -> A -> bool) (p : A -> bool) x l :
  (forall a b, p a = true -> p b = true -> leb a b = true) ->
  List.filter p (insert_by leb x l) = List.filter p (x :: l).
Proof.
  intros Hp. induction l as [|y l IH]; [reflexivity|].
  cbn [insert_by]. destruct (leb x y) eqn:E; [reflexivity|].
  cbn [List.filter] in IH |- *. rewrite IH.
  destruct (p x) eqn:Ex, (p y) eqn:Ey; try reflexivity.
  rewrite (Hp x y Ex Ey) in E. discriminate.
Qed.

Lemma sort_by_stable {A} (leb : A -> A -> bool) (p : A -> bool) l :
  (forall a b, p a = true -> p b = true -> leb a b = true) ->
  List.filter p (sort_by leb l) = List.filter p l.
Proof.
  intros Hp. induction l as [|x l IH]; [reflexivity|].
  cbn [sort_by fold_right]. fold (sort_by leb l).
  rewrite insert_by_stable by assumption. cbn [List.filter]. now rewrite IH.
Qed.

(** ** C8: nearest neighbours by cosine similarity *)

Lemma by_score_desc_total x y :
  intent_filter.by_score_desc x y = false -> intent_filter.by_score_desc y x = true.
Proof.
  unfold intent_filter.by_score_desc. intros Hf. apply Qle_bool_iff.
  destruct (Qlt_le_dec x.2 y.2) as [Hlt|Hle].
  - now apply Qlt_le_weak.
  - apply Qle_bool_iff in Hle. congruence.
Qed.

Lemma by_score_desc_trans x y z :
  intent_filter.by_score_desc x y = true -> intent_filter.by_score_desc y z = true ->
  intent_filter.by_score_desc x z = true.
Proof.
  unfold intent_filter.by_score_desc. rewrite !Qle_bool_iff. intros H1 H2.
  now apply Qle_trans with y.2.
Qed.

Lemma slice_to_nat {A} (k : nat) (l : list A) :
  intent_filter.slice_to (Z.of_nat k) l = firstn k l.
Proof.
  unfold intent_filter.slice_to.
  destruct (0 <=? Z.of_nat k) eqn:E; [now rewrite Nat2Z.id|].
  apply Z.leb_gt in E. lia.
Qed.

Section Retrieval.
Context `{Externals}.

Lemma similarity_fold embedding rows : forall similarities log,
  fold_left (intent_filter.similarity_step embedding) rows (similarities, log)
  = (similarities ++ omap (score_row embedding) rows,
     log ++ map (fun row => intent_filter.EmbeddingError row.1)
                (List.filter (fails_to_score embedding) rows)).
Proof.
  induction rows as [|[tid emb] rows IH]; intros similarities log.
  - cbn. now rewrite !app_nil_r.
  - cbn [fold_left]. unfold intent_filter.similarity_step at 2.
    cbn [omap list_omap List.filter]. unfold fails_to_score, score_row. cbn [fst snd].
    destruct (frombuffer emb) as [arr|];
      [destruct (cosine_similarity embedding arr) as [sim|]|];
      rewrite IH; cbn; now rewrite <- app_assoc.
Qed.

(** C8.  For every query and every count [k], the call returns the first
    [k] entries of a ranking of the stored rows, hence at most [k] pairs.
    The ranking holds exactly the rows whose embedding decodes and scores,
    each with its similarity to the query, in descending order of
    similarity, rows of equal similarity in scan order.  A row that fails
    is left out and logged, and the call still returns. *)
Theorem find_similar_ranking (st : store) (desc : string) (k : nat) :
  let rows := scan (transaction_embeddings st) in
  let scored := omap (score_row (encode desc)) rows in
  exists ranked,
    intent_filter.find_similar_transactions st desc (Z.of_nat k)
    = (firstn k ranked,
       map (fun row => intent_filter.EmbeddingError row.1)
           (List.filter (fails_to_score (encode desc)) rows))
    /\ (length (firstn k ranked) <= k)%nat
    /\ Permutation ranked scored
    /\ StronglySorted (fun x y => (y.2 <= x.2)%Q) ranked
    /\ (forall q, List.filter (fun x => Qeq_bool x.2 q) ranked
                  = List.filter (fun x => Qeq_bool x.2 q) scored).
Proof.
  intros rows scored. exists (sort_by intent_filter.by_score_desc scored).
  split; [|split; [|split; [|split]]].
  - unfold intent_filter.find_similar_transactions. fold rows.
    rewrite similarity_fold. cbn [app]. now rewrite slice_to_nat.
  - apply firstn_le_length.
  - apply sort_by_perm.
  - pose proof (sort_by_sorted intent_filter.by_score_desc by_score_desc_total
                  by_score_desc_trans scored) as Hs.
    eapply StronglySorted_weaken; [|exact Hs].
    intros x y Hxy. now apply Qle_bool_iff.
  - intros q. apply sort_by_stable. intros a b Ha Hb.
    apply Qeq_bool_iff in Ha, Hb. apply Qle_bool_iff. rewrite Ha, Hb. apply Qle_refl.
Qed.

End Retrieval.

(** ** [list(set(...))] *)

Lemma py_eq_refl x : Json.hashable x = true -> Json.py_eq x x = true.
Proof.
  destruct x as [|b|n|s| |]; cbn; try discriminate; intros _.
  - reflexivity.
  - now destruct b.
  - apply Z.eqb_refl.
  - apply String.eqb_refl.
Qed.

Lemma py_eq_str s y : Json.py_eq (JStr s) y = true -> y = JStr s.
Proof.
  destruct y; cbn; try discriminate. intros He. apply String.eqb_eq in He. now subst.
Qed.

Lemma py_distinct_snoc acc x :
  py_distinct acc -> Forall (fun a => Json.py_eq x a = false) acc ->
  py_distinct (acc ++ [x]).
Proof.
  induction acc as [|a acc IH]; cbn; intros Hd Hx.
  - split; constructor.
  - destruct Hd as [Ha Hd]. apply Forall_cons in Hx. destruct Hx as [Hxa Hx].
    split; [|now apply IH].
    apply Forall_app. split; [assumption|]. now constructor.
Qed.

Lemma set_fold xs : forall acc,
  py_distinct acc ->
  let out := fold_left Json.set_add xs acc in
  py_distinct out
  /\ (forall y, In y out -> In y acc \/ In y xs)
  /\ (forall y, In y acc -> In y out)
  /\ (forall x, In x xs -> Json.hashable x = true ->
                exists y, In y out /\ Json.py_eq x y = true).
Proof.
  induction xs as [|x xs IH]; intros acc Hd; cbn.
  - repeat split; [assumption | tauto | tauto | intros x []].
  - unfold Json.set_add at 2 4 6 8.
    destruct (existsb (Json.py_eq x) acc) eqn:E.
    + destruct (IH acc Hd) as (H1 & H2 & H3 & H4).
      split; [exact H1|]. split; [|split; [exact H3|]].
      * intros y Hy. destruct (H2 y Hy); tauto.
      * intros z [<-|Hz] Hh; [|now apply H4].
        apply existsb_exists in E. destruct E as (y & Hy & He).
        exists y. split; [now apply H3 | exact He].
    + assert (Hx : Forall (fun a => Json.py_eq x a = false) acc).
      { rewrite List.Forall_forall. intros a Ha.
        destruct (Json.py_eq x a) eqn:Ea; [|reflexivity].
        assert (existsb (Json.py_eq x) acc = true)
          by (apply existsb_exists; eauto).
        congruence. }
      destruct (IH (acc ++ [x]) (py_distinct_snoc acc x Hd Hx)) as (H1 & H2 & H3 & H4).
      split; [exact H1|]. split; [|split].
      * intros y Hy. destruct (H2 y Hy) as [Hin|Hin]; [|tauto].
        apply in_app_iff in Hin. cbn in Hin. tauto.
      * intros y Hy. apply H3, in_app_iff. now left.
      * intros z [<-|Hz] Hh; [|now apply H4].
        exists x. split; [|now apply py_eq_refl].
        apply H3, in_app_iff. right. now left.
Qed.

Lemma list_of_set_spec xs :
  forallb Json.hashable xs = true ->
  py_distinct (Json.list_of_set xs)
  /\ (forall y, In y (Json.list_of_set xs) -> In y xs)
  /\ (forall x, In x xs -> exists y, In y (Json.list_of_set xs) /\ Json.py_eq x y = true).
Proof.
  intros Hh. destruct (set_fold xs [] I) as (H1 & H2 & _ & H4).
  split; [exact H1|]. split.
  - intros y Hy. destruct (H2 y Hy) as [[]|Hin]. exact Hin.
  - intros x Hx. apply H4; [assumption|].
    rewrite forallb_forall in Hh. now apply Hh.
Qed.

(** ** The resolver after the model has answered *)

Section Resolver.
Context `{Externals}.

(** The shape of a call: one request, then the reading of the reply. *)
Lemma determine_intent_steps env input :
  intent_filter.determine_intent env input
  = (match intent_filter.chat_completion env (request_of env input) with
     | None => Returned None
     | Some content =>
         match json_loads (PyStr.strip content) with
         | None => Returned None
         | Some data =>
             result ← intent_filter.finalize env
                        (intent_filter.extract_tags_from_input input).1
                        (intent_filter.extract_tags_from_input input).2 data;
             mret (Some result)
         end
     end,
     [intent_filter.ChatRequest (request_of env input)]).
Proof.
  unfold intent_filter.determine_intent, request_of.
  destruct (intent_filter.extract_tags_from_input input) as [cleaned user_tags].
  cbn [fst snd].
  destruct (intent_filter.chat_completion env _) as [content|]; [|reflexivity].
  destruct (json_loads (PyStr.strip content)) as [data|]; reflexivity.
Qed.

Lemma finalize_date env cleaned user_tags data p :
  intent_filter.finalize env cleaned user_tags data = Returned p ->
  intent_filter.pr_date p = intent_filter.isoformat (intent_filter.today env).
Proof.
  destruct data as [| | | | |members]; try discriminate.
  unfold intent_filter.finalize.
  destruct (intent_filter.concat_tags _ _) as [all_tags|e]; [|discriminate].
  cbn [mbind outcome_bind].
  destruct (intent_filter.unique_tags all_tags) as [tags|e]; [|discriminate].
  cbn. intros Hp. injection Hp as <-. reflexivity.
Qed.

Lemma forallb_hashable_strings (user_tags : list string) :
  forallb Json.hashable (map JStr user_tags) = true.
Proof. induction user_tags; cbn; auto. Qed.

Lemma finalize_object env cleaned user_tags members M :
  Json.get_default "tags" (JArr []) members = JArr M ->
  forallb Json.hashable M = true ->
  exists p,
    intent_filter.finalize env cleaned user_tags (JObj members) = Returned p
    /\ intent_filter.pr_tags p = Json.list_of_set (map JStr user_tags ++ M)
    /\ intent_filter.pr_type p = Json.get_default "type" (JStr "withdrawal") members
    /\ intent_filter.pr_amount p = py_str (Json.get_default "amount" (JStr "0") members)
    /\ intent_filter.pr_description p
       = Json.get_default "description" (JStr cleaned) members
    /\ intent_filter.pr_source_id p
       = Json.get_default "source_id" (JStr "unknown") members
    /\ intent_filter.pr_destination_id p
       = Json.get_default "destination_id" (JStr "unknown") members
    /\ intent_filter.pr_currency_code p
       = Json.get_default "currency_code" (JStr "USD") members
    /\ intent_filter.pr_category_name p
       = Json.get_default "category_name" (JStr "") members
    /\ intent_filter.pr_bill_id p = Json.get_default "bill_id" (JStr "unknown") members.
Proof.
  intros Htags Hh. unfold intent_filter.finalize. rewrite Htags.
  cbn [intent_filter.concat_tags mbind outcome_bind].
  unfold intent_filter.unique_tags.
  rewrite forallb_app, forallb_hashable_strings, Hh. cbn [andb].
  eexists. split; [reflexivity|]. cbn. repeat split; reflexivity.
Qed.

(** ** C2: the date of a proposal *)

(** C2.  Whenever [determine_intent] returns a proposal, its date is the
    ISO form of the current date read at resolution time, whatever the
    input and the decoded response hold. *)
Theorem proposal_date_is_today env input p events :
  intent_filter.determine_intent env input = (Returned (Some p), events) ->
  intent_filter.pr_date p = intent_filter.isoformat (intent_filter.today env).
Proof.
  rewrite determine_intent_steps. intros Hrun. injection Hrun as Hres _.
  destruct (intent_filter.chat_completion env _) as [content|]; [|discriminate].
  destruct (json_loads (PyStr.strip content)) as [data|]; [|discriminate].
  destruct (intent_filter.finalize env _ _ data) as [result|e] eqn:Ef; [|discriminate].
  cbn in Hres. injection Hres as <-. now apply finalize_date in Ef.
Qed.

End Resolver.

Lemma proposal_date_is_today_witness :
  exists p events,
    @intent_filter.determine_intent sample.externals sample.env
      "pay rent 2020-05-05 tags:housing,rent" = (Returned (Some p), events)
    /\ intent_filter.pr_date p = "2025-02-03".
Proof.
  assert (Hrun : exists p events,
            @intent_filter.determine_intent sample.externals sample.env
              "pay rent 2020-05-05 tags:housing,rent" = (Returned (Some p), events)).
  { vm_compute. eauto. }
  destruct Hrun as (p & events & Hrun). exists p, events. split; [exact Hrun|].
  exact (@proposal_date_is_today sample.externals sample.env
           "pay rent 2020-05-05 tags:housing,rent" p events Hrun).
Defined.

(** ** C3: reading the model's response *)


Section Parsing.
Context `{Externals}.



End Parsing.


(** ** C4: the tags of a proposal *)

Section Tags.
Context `{Externals}.

(** C4.  Let the input yield the explicit tags [T] and let the decoded
    response be an object whose [tags] field is the list [M] (of hashable
    values, as a set requires).  Then the call returns a proposal whose
    tags are, as a set, the union of [T] and [M]: every entry comes from
    [T] or [M], every element of [T] and of [M] is represented by an equal
    entry, no entry is repeated, and every tag of [T] is itself an entry. *)
Theorem proposal_tags_union env input cleaned T content members M :
  intent_filter.extract_tags_from_input input = (cleaned, T) ->
  intent_filter.chat_completion env (request_of env input) = Some content ->
  json_loads (PyStr.strip content) = Some (JObj members) ->
  Json.obj_get "tags" members = Some (JArr M) ->
  forallb Json.hashable M = true ->
  exists p,
    (intent_filter.determine_intent env input).1 = Returned (Some p)
    /\ (forall y, In y (intent_filter.pr_tags p) -> In y (map JStr T ++ M))
    /\ (forall x, In x (map JStr T ++ M) ->
                  exists y, In y (intent_filter.pr_tags p) /\ Json.py_eq x y = true)
    /\ py_distinct (intent_filter.pr_tags p)
    /\ (forall t, In t T -> In (JStr t) (intent_filter.pr_tags p)).
Proof.
  intros Hx Hc Hj Hm Hh.
  assert (Htags : Json.get_default "tags" (JArr []) members = JArr M).
  { unfold Json.get_default. now rewrite Hm. }
  rewrite determine_intent_steps. cbn [fst]. rewrite Hc, Hj, Hx. cbn [fst snd].
  destruct (finalize_object env cleaned T members M Htags Hh) as (p & Hp & Hpt & _).
  exists p. rewrite Hp. split; [reflexivity|]. rewrite Hpt.
  assert (Hall : forallb Json.hashable (map JStr T ++ M) = true).
  { now rewrite forallb_app, forallb_hashable_strings, Hh. }
  destruct (list_of_set_spec _ Hall) as (Hd & Hsub & Hsup).
  split; [exact Hsub|]. split; [exact Hsup|]. split; [exact Hd|].
  intros t Ht.
  destruct (Hsup (JStr t)) as (y & Hy & He).
  { apply in_app_iff. left. now apply in_map. }
  apply py_eq_str in He. now subst y.
Qed.

End Tags.

Lemma proposal_tags_union_witness :
  intent_filter.extract_tags_from_input "pay rent tags:housing,rent"
  = ("pay rent", ["housing"; "rent"])
  /\ Json.obj_get "tags" [("tags", JArr [JStr "rent"; JStr "monthly"]);
                          ("date", JStr "1999-01-01")]
     = Some (JArr [JStr "rent"; JStr "monthly"])
  /\ exists p,
       (@intent_filter.determine_intent sample.externals sample.env
          "pay rent tags:housing,rent").1 = Returned (Some p)
       /\ In (JStr "housing") (intent_filter.pr_tags p)
       /\ In (JStr "rent") (intent_filter.pr_tags p).
Proof.
  split; [reflexivity|]. split; [reflexivity|].
  destruct (@proposal_tags_union sample.externals sample.env
              "pay rent tags:housing,rent" "pay rent" ["housing"; "rent"]
              (" " +:+ sample.reply_text +:+ PyStr.nl)
              [("tags", JArr [JStr "rent"; JStr "monthly"]); ("date", JStr "1999-01-01")]
              [JStr "rent"; JStr "monthly"]
              eq_refl eq_refl eq_refl eq_refl eq_refl)
    as (p & Hp & _ & _ & _ & HT).
  exists p. split; [exact Hp|]. split; apply HT; cbn; tauto.
Defined.

Example sample_proposal_tags :
  intent_filter.pr_tags <$>
    match (@intent_filter.determine_intent sample.externals sample.env
             "pay rent tags:housing,rent").1 with
    | Returned (Some p) => Some p
    | _ => None
    end
  = Some [JStr "housing"; JStr "rent"; JStr "monthly"].
Proof. vm_compute. reflexivity. Qed.

(** ** C5: reading the ledger's response to a submission *)

Section Submission.
Context `{Externals}.

(** One request at most, and none is repeated on failure. *)
Lemma post_transaction_single_request api p :
  (length (main.post_transaction api p).2 <= 1)%nat.
Proof.
  unfold main.post_transaction. destruct (main.build_transaction p); cbn; lia.
Qed.

(** No response at all: [False]. *)
Lemma no_response_is_failure : main.interpret_response None = Returned main.PostedFalse.
Proof. reflexivity. Qed.

(** An object with an [errors] key is handed back as it is. *)
Lemma errors_are_returned_verbatim members :
  Json.has_key "errors" members = true ->
  main.interpret_response (Some (JObj members)) = Returned (main.ErrorResponse (JObj members)).
Proof.
  intros He. unfold main.interpret_response.
  destruct members as [|m members]; [discriminate|].
  cbn [Json.truthy main.py_in mbind outcome_bind]. now rewrite He.
Qed.

(** A non-empty object without [errors] takes the success branch, with or
    without a [data] key. *)
Lemma no_errors_is_success members :
  members <> [] ->
  Json.has_key "errors" members = false ->
  main.interpret_response (Some (JObj members)) = main.report_success (JObj members).
Proof.
  intros Hne He. unfold main.interpret_response.
  destruct members as [|m members]; [congruence|].
  cbn [Json.truthy main.py_in mbind outcome_bind]. now rewrite He.
Qed.

End Submission.

(** C5: the code departs from the claim.  The ledger answers
    [{"message": "Unauthenticated."}], an object with neither [data] nor
    [errors]: [post_transaction] returns [True], the value the caller
    reports as a confirmed submission, where the claim has a transport or
    unknown failure; the last line of [process] in [final_prompt.py],
    which tests for [data], reads the same response as a failure. *)
Theorem response_without_data_or_errors_is_success :
  @main.post_transaction sample.externals (fun _ => Some sample.unauthenticated)
    sample.proposal
  = (Returned main.PostedTrue, [main.PostRequest [sample.posted]])
  /\ final_prompt.process_response (Some sample.unauthenticated)
     = Returned (final_prompt.Tested false).
Proof. split; vm_compute; reflexivity. Qed.

Example isoformat_pads :
  intent_filter.isoformat
    {| intent_filter.year := 987; intent_filter.month := 3; intent_filter.day := 12 |}
  = "0987-03-12".
Proof. reflexivity. Qed.

(** ** The sync keeps every tag row named *)

Lemma emitted_tags_named items :
  Forall (fun r => tag_name r <> "") (emitted_tags items).
Proof.
  unfold emitted_tags. rewrite List.Forall_forall. intros r Hr.
  apply in_flat_map in Hr. destruct Hr as (item & _ & Hr).
  unfold tag_rows_of in Hr. apply in_map_iff in Hr. destruct Hr as (tag & <- & Ht).
  apply List.filter_In in Ht. destruct Ht as [_ Ht]. cbn. now destruct tag.
Qed.

(** The sync stores no tag row with an empty name: a store whose tag rows
    all name their tag keeps that property through a run. *)
Lemma main_keeps_tags_named `{Externals} r st :
  tags_named st -> tags_named (firefly_sync.main r st).
Proof.
  intros Hn. unfold tags_named, firefly_sync.main, firefly_sync.init_db.
  rewrite backfill_spec, sync_transactions_spec, sync_bills_spec,
    sync_categories_spec, sync_accounts_spec. cbn.
  apply Forall_app. split; [exact Hn | apply emitted_tags_named].
Qed.

(** * Further properties of the sync engine *)

Lemma upsert_all_values {A V} (key : A -> Z) (val : A -> V) (P : V -> Prop) rows
      (m : gmap Z V) :
  (forall r, In r rows -> P (val r)) ->
  (forall k v, m !! k = Some v -> P v) ->
  forall k v, upsert_all key val rows m !! k = Some v -> P v.
Proof.
  revert m. induction rows as [|r rows IH]; intros m Hrows Hm k v Hk; [now apply Hm with k|].
  cbn in Hk. eapply IH; [| |exact Hk].
  - intros r' Hr'. apply Hrows. now right.
  - intros k' v' Hk'. destruct (decide (key r = k')) as [<-|Hne].
    + rewrite lookup_insert_eq in Hk'. injection Hk' as <-. apply Hrows. now left.
    + rewrite lookup_insert_ne in Hk' by assumption. now apply Hm with k'.
Qed.

Lemma upsert_all_is_Some_iff {A V} (key : A -> Z) (val : A -> V) rows (m : gmap Z V) k :
  is_Some (upsert_all key val rows m !! k) <-> is_Some (m !! k) \/ In k (map key rows).
Proof.
  revert m. induction rows as [|r rows IH]; intros m; cbn; [tauto|].
  fold (upsert_all key val rows (<[key r := val r]> m)). rewrite IH.
  destruct (decide (key r = k)) as [<-|Hne].
  - rewrite lookup_insert_eq. split; [tauto | eauto].
  - rewrite lookup_insert_ne by assumption. tauto.
Qed.

Section SyncFacts.
Context `{Externals}.

(** What [main] leaves in each table, in terms of the records served. *)
Lemma main_tables r st :
  let s := firefly_sync.main r st in
  accounts s
  = upsert_all firefly_sync.ra_id account_row_of
      (List.filter mirrored (served (firefly_sync.remote_accounts r))) (accounts st)
  /\ categories s
     = upsert_all firefly_sync.rc_id category_row_of
         (served (firefly_sync.remote_categories r)) (categories st)
  /\ bills s
     = upsert_all firefly_sync.rb_id bill_row_of
         (served (firefly_sync.remote_bills r)) (bills st)
  /\ transactions s
     = upsert_all firefly_sync.rt_id transaction_row_of
         (served (firefly_sync.remote_transactions r)) (transactions st)
  /\ transactions_tags s
     = transactions_tags st ++ emitted_tags (served (firefly_sync.remote_transactions r)).
Proof.
  unfold firefly_sync.main, firefly_sync.init_db.
  rewrite backfill_spec, sync_transactions_spec, sync_bills_spec,
    sync_categories_spec, sync_accounts_spec. cbn. repeat split; reflexivity.
Qed.

(** The embeddings [main] leaves: those it found, plus the backfill of the
    store the four syncs produced. *)
Lemma main_embeddings r st :
  exists synced,
    transactions synced = transactions (firefly_sync.main r st)
    /\ transaction_embeddings synced = transaction_embeddings st
    /\ transaction_embeddings (firefly_sync.main r st)
       = upsert_all firefly_sync.p_id embedding_of (firefly_sync.pending_rows synced)
           (transaction_embeddings synced).
Proof.
  unfold firefly_sync.main, firefly_sync.init_db.
  set (synced := firefly_sync.sync_transactions _ _).
  exists synced. split; [|split].
  - now rewrite backfill_spec.
  - unfold synced.
    rewrite sync_transactions_spec, sync_bills_spec, sync_categories_spec,
      sync_accounts_spec. reflexivity.
  - apply backfill_embeddings.
Qed.

Lemma pending_id_has_no_embedding st id :
  In id (map firefly_sync.p_id (firefly_sync.pending_rows st)) ->
  transaction_embeddings st !! id = None /\ is_Some (transactions st !! id).
Proof.
  rewrite pending_ids, in_map_iff. intros ([tid t] & <- & Hin).
  apply List.filter_In in Hin. destruct Hin as [Hin Hnone]. cbn in Hnone |- *.
  apply bool_decide_eq_true in Hnone.
  apply list_elem_of_In, elem_of_map_to_list in Hin. eauto.
Qed.

Lemma pending_id_iff st id :
  In id (map firefly_sync.p_id (firefly_sync.pending_rows st))
  <-> transaction_embeddings st !! id = None /\ is_Some (transactions st !! id).
Proof.
  split; [apply pending_id_has_no_embedding|].
  intros [Hnone [t Ht]]. apply in_map_iff.
  exists (firefly_sync.pending_of st (id, t)). split; [reflexivity|].
  now apply pending_row_in.
Qed.

(** Accounts of type [reconciliation] or [initial-balance] are never
    written: a store free of them stays free of them through a run. *)
Theorem sync_never_mirrors_excluded_accounts r st :
  no_excluded_accounts st -> no_excluded_accounts (firefly_sync.main r st).
Proof.
  intros Hst id row. destruct (main_tables r st) as (-> & _).
  apply (upsert_all_values firefly_sync.ra_id account_row_of
           (fun row => firefly_sync.skipped_type (acc_type row) = false)).
  - intros item Hitem. apply List.filter_In in Hitem. destruct Hitem as [_ Hm].
    unfold mirrored in Hm. cbn. now apply negb_true_iff in Hm.
  - exact Hst.
Qed.


End SyncFacts.

Lemma sync_never_mirrors_excluded_accounts_witness :
  no_excluded_accounts sample.store_with_unnamed_account
  /\ map (fun item => (firefly_sync.ra_id item, firefly_sync.ra_type item))
         (served (firefly_sync.remote_accounts sample.ledger_edge))
     = [(12, firefly_sync.Value "asset"); (20, firefly_sync.Value "reconciliation");
        (21, firefly_sync.Value "initial-balance"); (16, firefly_sync.Value "expense")]
  /\ map fst (map_to_list
                (accounts (@firefly_sync.main sample.externals sample.ledger_edge
                             sample.store_with_unnamed_account)))
     = [12; 16]
  /\ no_excluded_accounts
       (@firefly_sync.main sample.externals sample.ledger_edge
          sample.store_with_unnamed_account).
Proof.
  assert (Hstore : no_excluded_accounts sample.store_with_unnamed_account).
  { intros id row Hrow. cbn in Hrow.
    apply lookup_singleton_Some in Hrow. destruct Hrow as [_ <-]. reflexivity. }
  split; [exact Hstore|]. split; [reflexivity|]. split; [vm_compute; reflexivity|].
  exact (@sync_never_mirrors_excluded_accounts sample.externals sample.ledger_edge
           sample.store_with_unnamed_account Hstore).
Defined.


Lemma main_keeps_tags_named_witness :
  tags_named sample.store_with_one_tag
  /\ In sample.coffee_edited (served (firefly_sync.remote_transactions sample.ledger_edge))
  /\ firefly_sync.rt_tags sample.coffee_edited = ["food"; ""; "cafe"]
  /\ transactions_tags
       (@firefly_sync.main sample.externals sample.ledger_edge sample.store_with_one_tag)
     = [{| tag_transaction_id := 7; tag_name := "food" |};
        {| tag_transaction_id := 7; tag_name := "food" |};
        {| tag_transaction_id := 7; tag_name := "food" |};
        {| tag_transaction_id := 7; tag_name := "cafe" |}]
  /\ tags_named
       (@firefly_sync.main sample.externals sample.ledger_edge sample.store_with_one_tag).
Proof.
  assert (Hstore : tags_named sample.store_with_one_tag).
  { repeat constructor. discriminate. }
  split; [exact Hstore|]. split; [cbn; tauto|]. split; [reflexivity|].
  split; [vm_compute; reflexivity|].
  exact (@main_keeps_tags_named sample.externals sample.ledger_edge
           sample.store_with_one_tag Hstore).
Defined.

(** A reply without data, or an empty page, ends a sync: the pages after
    it are never read, whatever they hold. *)
Theorem sync_stops_at_first_gap {A} (process : A -> store -> store)
        (before later : list (firefly_sync.reply A)) (st : store) :
  firefly_sync.sync_pages process (before ++ firefly_sync.NoData :: later) st
  = firefly_sync.sync_pages process before st
  /\ firefly_sync.sync_pages process (before ++ firefly_sync.Data [] :: later) st
     = firefly_sync.sync_pages process before st.
Proof.
  split; revert st; induction before as [|[|[|item items]] before IH]; intros st;
    try reflexivity; cbn [app firefly_sync.sync_pages]; apply IH.
Qed.

Section SyncMore.
Context `{Externals}.

(** A run deletes nothing and recomputes nothing: every id present in a
    keyed table before the run is present after it, an embedding found in
    the store is kept as it is (also when its transaction is rewritten),
    and the tag rows found are kept, in order, in front of the new ones. *)
Theorem sync_never_deletes r st :
  let s := firefly_sync.main r st in
  (forall id, is_Some (accounts st !! id) -> is_Some (accounts s !! id))
  /\ (forall id, is_Some (categories st !! id) -> is_Some (categories s !! id))
  /\ (forall id, is_Some (bills st !! id) -> is_Some (bills s !! id))
  /\ (forall id, is_Some (transactions st !! id) -> is_Some (transactions s !! id))
  /\ (forall id e, transaction_embeddings st !! id = Some e ->
                   transaction_embeddings s !! id = Some e)
  /\ firstn (length (transactions_tags st)) (transactions_tags s) = transactions_tags st.
Proof.
  intros s. destruct (main_tables r st) as (Ha & Hc & Hb & Ht & Hg). fold s in Ha, Hc, Hb, Ht, Hg.
  rewrite Ha, Hc, Hb, Ht, Hg.
  repeat (split; [intros id; apply upsert_all_is_Some|]).
  split.
  - intros id e He. destruct (main_embeddings r st) as (synced & _ & Hsame & Hemb).
    fold s in Hemb. rewrite Hemb. rewrite upsert_all_notin; [now rewrite Hsame|].
    intros Hin. apply pending_id_has_no_embedding in Hin. destruct Hin as [Hnone _].
    rewrite Hsame in Hnone. congruence.
  - rewrite firstn_app, Nat.sub_diag, firstn_all. cbn. apply app_nil_r.
Qed.

(** The backfill gives an embedding to the transactions that lack one and
    to nothing else. *)
Theorem backfill_domain st :
  dom (transaction_embeddings (firefly_sync.store_transaction_embeddings st))
  = dom (transaction_embeddings st) ∪ dom (transactions st).
Proof.
  apply set_eq. intros id.
  rewrite elem_of_union, !elem_of_dom, backfill_embeddings, upsert_all_is_Some_iff,
    pending_id_iff.
  split.
  - intros [?|[_ ?]]; tauto.
  - intros [?|Ht]; [tauto|].
    destruct (transaction_embeddings st !! id) eqn:E; [left; eauto | right; tauto].
Qed.

Lemma main_embedding_present r st tid :
  is_Some (transactions (firefly_sync.main r st) !! tid) ->
  is_Some (transaction_embeddings (firefly_sync.main r st) !! tid).
Proof.
  intros [t Ht]. unfold firefly_sync.main in *.
  set (synced := firefly_sync.sync_transactions _ _) in *.
  assert (Ht' : transactions synced !! tid = Some t).
  { rewrite backfill_spec in Ht. exact Ht. }
  now apply backfill_complete with t.
Qed.

(** After a run every transaction of the store has an embedding. *)
Theorem main_embeds_every_transaction r st :
  dom (transactions (firefly_sync.main r st))
  ⊆ dom (transaction_embeddings (firefly_sync.main r st)).
Proof.
  intros id Hid. apply elem_of_dom in Hid. apply elem_of_dom.
  now apply main_embedding_present.
Qed.

(** Running the backfill again changes nothing. *)
Theorem backfill_idempotent st :
  firefly_sync.store_transaction_embeddings (firefly_sync.store_transaction_embeddings st)
  = firefly_sync.store_transaction_embeddings st.
Proof.
  apply backfill_noop. intros tid t Ht.
  rewrite backfill_spec in Ht. cbn in Ht. now apply backfill_complete with t.
Qed.

End SyncMore.

Section LastWins.
Context `{Externals}.

(** Of several served records with one id the last one is kept: after a
    run the row of an id is the row built from the last record served
    with that id. *)
Theorem last_served_transaction_wins r st before item after :
  served (firefly_sync.remote_transactions r) = before ++ item :: after ->
  (forall other, In other after -> firefly_sync.rt_id other <> firefly_sync.rt_id item) ->
  transactions (firefly_sync.main r st) !! firefly_sync.rt_id item
  = Some (transaction_row_of item).
Proof.
  intros Hserved Hlast. destruct (main_tables r st) as (_ & _ & _ & -> & _).
  rewrite Hserved, upsert_all_app. cbn [upsert_all fold_left].
  fold (upsert_all firefly_sync.rt_id transaction_row_of after
          (<[firefly_sync.rt_id item := transaction_row_of item]>
             (upsert_all firefly_sync.rt_id transaction_row_of before (transactions st)))).
  rewrite upsert_all_notin; [apply lookup_insert_eq|].
  intros Hin. apply in_map_iff in Hin. destruct Hin as (other & Hid & Hother).
  now apply (Hlast other Hother).
Qed.

End LastWins.

Lemma last_served_transaction_wins_witness :
  served (firefly_sync.remote_transactions sample.ledger_edge)
  = [sample.coffee_record] ++ sample.coffee_edited :: [sample.tea_record]
  /\ firefly_sync.rt_id sample.coffee_record = firefly_sync.rt_id sample.coffee_edited
  /\ transaction_row_of sample.coffee_record <> transaction_row_of sample.coffee_edited
  /\ transactions (@firefly_sync.main sample.externals sample.ledger_edge
                     sample.store_with_one_tag) !! 7
     = Some (transaction_row_of sample.coffee_edited).
Proof.
  split; [reflexivity|]. split; [reflexivity|]. split; [discriminate|].
  refine (@last_served_transaction_wins sample.externals sample.ledger_edge
            sample.store_with_one_tag [sample.coffee_record] sample.coffee_edited
            [sample.tea_record] eq_refl _).
  intros other [<-|[]]. discriminate.
Defined.

(** * Further properties of the resolver *)

Lemma lower_char_idem c : PyStr.lower_char (PyStr.lower_char c) = PyStr.lower_char c.
Proof. destruct c as [[] [] [] [] [] [] [] []]; reflexivity. Qed.

Lemma isspace_lower_char c : PyStr.isspace (PyStr.lower_char c) = PyStr.isspace c.
Proof. destruct c as [[] [] [] [] [] [] [] []]; reflexivity. Qed.

Lemma lower_idem s : PyStr.lower (PyStr.lower s) = PyStr.lower s.
Proof.
  induction s as [|c s IH]; cbn; [reflexivity|]. now rewrite lower_char_idem, IH.
Qed.

Lemma lower_empty_iff s : PyStr.lower s = "" <-> s = "".
Proof. destruct s; cbn; split; congruence. Qed.

Lemma lstrip_lower s : PyStr.lstrip (PyStr.lower s) = PyStr.lower (PyStr.lstrip s).
Proof.
  induction s as [|c s IH]; cbn; [reflexivity|].
  rewrite isspace_lower_char. now destruct (PyStr.isspace c).
Qed.

Lemma rstrip_lower s : PyStr.rstrip (PyStr.lower s) = PyStr.lower (PyStr.rstrip s).
Proof.
  induction s as [|c s IH]; cbn; [reflexivity|].
  rewrite IH, isspace_lower_char.
  destruct (PyStr.rstrip s) as [|d r]; cbn; [now destruct (PyStr.isspace c) | reflexivity].
Qed.

Lemma strip_lower s : PyStr.strip (PyStr.lower s) = PyStr.lower (PyStr.strip s).
Proof. unfold PyStr.strip. now rewrite lstrip_lower, rstrip_lower. Qed.

Lemma rstrip_idem s : PyStr.rstrip (PyStr.rstrip s) = PyStr.rstrip s.
Proof.
  induction s as [|c s IH]; cbn; [reflexivity|].
  destruct (PyStr.rstrip s) as [|d r] eqn:E.
  - destruct (PyStr.isspace c) eqn:Ec; cbn; [reflexivity | now rewrite Ec].
  - cbn [PyStr.rstrip]. cbn [PyStr.rstrip] in IH. now rewrite IH.
Qed.

(** A string that does not start with white space. *)
Lemma lstrip_fixed s :
  match s with EmptyString => True | String c _ => PyStr.isspace c = false end ->
  PyStr.lstrip s = s.
Proof. destruct s as [|c s]; cbn; [reflexivity|]. now intros ->. Qed.

Lemma lstrip_head s :
  match PyStr.lstrip s with EmptyString => True | String c _ => PyStr.isspace c = false end.
Proof.
  induction s as [|c s IH]; cbn; [exact I|].
  destruct (PyStr.isspace c) eqn:E; [exact IH | exact E].
Qed.

Lemma rstrip_head s :
  match s with EmptyString => True | String c _ => PyStr.isspace c = false end ->
  match PyStr.rstrip s with EmptyString => True | String c _ => PyStr.isspace c = false end.
Proof.
  destruct s as [|c s]; cbn; [trivial|]. intros Hc.
  destruct (PyStr.rstrip s); [now rewrite Hc | exact Hc].
Qed.

Lemma strip_idem s : PyStr.strip (PyStr.strip s) = PyStr.strip s.
Proof.
  unfold PyStr.strip.
  rewrite (lstrip_fixed (PyStr.rstrip (PyStr.lstrip s))) by apply rstrip_head, lstrip_head.
  apply rstrip_idem.
Qed.

Lemma isascii_app a b : isascii (a +:+ b) = isascii a && isascii b.
Proof.
  induction a as [|c a IH]; cbn [String.append isascii]; [reflexivity|].
  now rewrite IH, andb_assoc.
Qed.

Lemma isascii_lstrip s : isascii s = true -> isascii (PyStr.lstrip s) = true.
Proof.
  induction s as [|c s IH]; cbn [PyStr.lstrip isascii]; [reflexivity|]. intros Hs.
  destruct (PyStr.isspace c); [|exact Hs].
  apply andb_true_iff in Hs. now apply IH.
Qed.

Lemma isascii_rstrip s : isascii s = true -> isascii (PyStr.rstrip s) = true.
Proof.
  induction s as [|c s IH]; cbn [PyStr.rstrip isascii]; [reflexivity|]. intros Hs.
  apply andb_true_iff in Hs. destruct Hs as [Hc Hs]. specialize (IH Hs).
  destruct (PyStr.rstrip s) as [|d r].
  - destruct (PyStr.isspace c); cbn [isascii]; [reflexivity | now rewrite Hc].
  - change (isascii (String c (String d r)))
      with ((nat_of_ascii c <? 128)%nat && isascii (String d r)).
    now rewrite Hc, IH.
Qed.

Lemma isascii_strip s : isascii s = true -> isascii (PyStr.strip s) = true.
Proof. intros Hs. now apply isascii_rstrip, isascii_lstrip. Qed.

Lemma lower_char_below_128 c :
  (nat_of_ascii c <? 128)%nat = true ->
  (nat_of_ascii (PyStr.lower_char c) <? 128)%nat = true.
Proof. destruct c as [[] [] [] [] [] [] [] []]; vm_compute; auto. Qed.

Lemma isascii_lower s : isascii s = true -> isascii (PyStr.lower s) = true.
Proof.
  induction s as [|c s IH]; cbn [PyStr.lower isascii]; [reflexivity|]. intros Hs.
  apply andb_true_iff in Hs. destruct Hs as [Hc Hs].
  now rewrite (lower_char_below_128 c Hc), IH.
Qed.

Lemma isascii_split_go sep s skip cur :
  isascii s = true -> isascii cur = true ->
  Forall (fun part => isascii part = true) (PyStr.split_go sep s skip cur).
Proof.
  revert skip cur. induction s as [|c s IH]; intros skip cur Hs Hcur.
  - cbn. now constructor.
  - cbn [isascii] in Hs. apply andb_true_iff in Hs. destruct Hs as [Hc Hs].
    cbn [PyStr.split_go]. destruct skip as [|k]; [|now apply IH].
    destruct (PyStr.startswith sep (String c s)).
    + constructor; [exact Hcur | now apply IH].
    + apply IH; [exact Hs|]. rewrite isascii_app, Hcur. cbn [isascii]. now rewrite Hc.
Qed.

Lemma isascii_split sep s :
  isascii s = true -> Forall (fun part => isascii part = true) (PyStr.split sep s).
Proof. intros Hs. now apply isascii_split_go. Qed.

Lemma isascii_nth n parts :
  Forall (fun part => isascii part = true) parts -> isascii (nth n parts EmptyString) = true.
Proof.
  intros Hparts. destruct (nth_in_or_default n parts EmptyString) as [Hin| ->]; [|reflexivity].
  rewrite List.Forall_forall in Hparts. now apply Hparts.
Qed.

(** On an input of ASCII characters, where the string functions above are
    Python's: every explicit tag is non-empty, lower-case, free of
    surrounding white space and ASCII again, and the cleaned input of a
    marked message is trimmed; a message without the marker comes back as
    it is, with no tag; the cleaned input is ASCII in both cases. *)
Theorem extracted_tags_are_normalised (input : string) :
  isascii input = true ->
  Forall (fun t => t <> "" /\ PyStr.lower t = t /\ PyStr.strip t = t /\ isascii t = true)
         (intent_filter.extract_tags_from_input input).2
  /\ (PyStr.contains intent_filter.tags_marker input = true ->
      PyStr.strip (intent_filter.extract_tags_from_input input).1
      = (intent_filter.extract_tags_from_input input).1)
  /\ (PyStr.contains intent_filter.tags_marker input = false ->
      intent_filter.extract_tags_from_input input = (input, []))
  /\ isascii (intent_filter.extract_tags_from_input input).1 = true.
Proof.
  intros Hascii.
  pose proof (isascii_split intent_filter.tags_marker input Hascii) as Hparts.
  unfold intent_filter.extract_tags_from_input.
  destruct (PyStr.contains intent_filter.tags_marker input); cbn [fst snd].
  - split; [|split; [intros _; apply strip_idem |
                     split; [discriminate | now apply isascii_strip, isascii_nth]]].
    unfold intent_filter.parse_tag_list. rewrite List.Forall_forall. intros t Ht.
    apply in_map_iff in Ht. destruct Ht as (x & <- & Hx).
    apply list_elem_of_In, list_elem_of_filter in Hx. destruct Hx as [Hx Hin].
    split; [|split; [|split]].
    + rewrite lower_empty_iff. intros He. now rewrite He in Hx.
    + apply lower_idem.
    + now rewrite strip_lower, strip_idem.
    + apply isascii_lower, isascii_strip.
      pose proof (isascii_split "," _
                    (isascii_strip _ (isascii_nth 1 _ Hparts))) as Htags.
      rewrite List.Forall_forall in Htags. now apply Htags, list_elem_of_In.
  - split; [constructor|]. split; [discriminate|]. split; [reflexivity | exact Hascii].
Qed.

Lemma extracted_tags_are_normalised_witness :
  isascii "lunch at Sukiya tags: Food , ,OUT " = true
  /\ intent_filter.extract_tags_from_input "lunch at Sukiya tags: Food , ,OUT "
     = ("lunch at Sukiya", ["food"; "out"])
  /\ Forall (fun t => t <> "" /\ PyStr.lower t = t /\ PyStr.strip t = t /\ isascii t = true)
            (intent_filter.extract_tags_from_input "lunch at Sukiya tags: Food , ,OUT ").2.
Proof.
  split; [reflexivity|]. split; [vm_compute; reflexivity|].
  exact (proj1 (extracted_tags_are_normalised "lunch at Sukiya tags: Food , ,OUT " eq_refl)).
Defined.

Section RetrievalMore.
Context `{Externals}.

Lemma find_similar_result st desc (k : nat) :
  intent_filter.find_similar_transactions st desc (Z.of_nat k)
  = (firstn k (sort_by intent_filter.by_score_desc
                 (omap (score_row (encode desc)) (scan (transaction_embeddings st)))),
     map (fun row => intent_filter.EmbeddingError row.1)
         (List.filter (fails_to_score (encode desc)) (scan (transaction_embeddings st)))).
Proof.
  unfold intent_filter.find_similar_transactions.
  rewrite similarity_fold. cbn [app]. now rewrite slice_to_nat.
Qed.

Lemma scored_or_failed embedding (rows : list (Z * list Byte.byte)) :
  (length (omap (score_row embedding) rows)
   + length (List.filter (fails_to_score embedding) rows))%nat = length rows.
Proof.
  induction rows as [|row rows IH]; [reflexivity|].
  cbn [omap list_omap List.filter]. unfold fails_to_score at 1.
  destruct (score_row embedding row); cbn [length]; fold (omap (score_row embedding) rows);
    lia.
Qed.

Lemma scored_id_stored embedding (rows : list (Z * list Byte.byte)) x :
  In x (omap (score_row embedding) rows) -> exists emb, In (x.1, emb) rows.
Proof.
  rewrite <- list_elem_of_In, list_elem_of_omap. intros ([tid emb] & Hin & Hs).
  apply list_elem_of_In in Hin. unfold score_row in Hs. cbn [fst snd] in Hs.
  destruct (frombuffer emb); [|discriminate].
  destruct (cosine_similarity embedding v); [|discriminate].
  injection Hs as <-. eauto.
Qed.

(** With [top_k = 1] the pair returned, if any, has the highest similarity
    among the rows that score. *)
Theorem best_match_is_maximal st desc tid s :
  (intent_filter.find_similar_transactions st desc 1).1 = [(tid, s)] ->
  In (tid, s) (omap (score_row (encode desc)) (scan (transaction_embeddings st)))
  /\ forall x, In x (omap (score_row (encode desc)) (scan (transaction_embeddings st))) ->
               (x.2 <= s)%Q.
Proof.
  change 1 with (Z.of_nat 1). rewrite find_similar_result. cbn [fst].
  set (scored := omap _ _).
  pose proof (sort_by_sorted intent_filter.by_score_desc by_score_desc_total
                by_score_desc_trans scored) as Hs.
  pose proof (sort_by_In intent_filter.by_score_desc) as Hin.
  destruct (sort_by intent_filter.by_score_desc scored) as [|y ranked] eqn:E;
    [discriminate|].
  cbn. intros Hy. injection Hy as ->.
  split; [apply (Hin (tid, s) scored); rewrite E; now left|].
  intros x Hx. apply (Hin x scored) in Hx. rewrite E in Hx.
  destruct Hx as [<-|Hx]; [apply Qle_refl|].
  apply StronglySorted_inv in Hs. destruct Hs as [_ Hall].
  rewrite List.Forall_forall in Hall. apply Hall in Hx.
  now apply Qle_bool_iff in Hx.
Qed.

(** No stored embedding is dropped silently: asked for as many results as
    there are rows, the call returns or logs every one of them, and every
    id it returns has a stored embedding. *)
Theorem every_row_is_ranked_or_logged st desc :
  let n := size (transaction_embeddings st) in
  (length (intent_filter.find_similar_transactions st desc (Z.of_nat n)).1
   + length (intent_filter.find_similar_transactions st desc (Z.of_nat n)).2)%nat = n
  /\ forall k, Forall (fun x => is_Some (transaction_embeddings st !! x.1))
                      (intent_filter.find_similar_transactions st desc (Z.of_nat k)).1.
Proof.
  intros n. split.
  - rewrite find_similar_result. cbn [fst snd].
    rewrite length_map, firstn_all2.
    + rewrite (Permutation_length (sort_by_perm _ _)).
      rewrite scored_or_failed. unfold scan. apply length_map_to_list.
    + rewrite (Permutation_length (sort_by_perm _ _)).
      pose proof (scored_or_failed (encode desc) (scan (transaction_embeddings st))) as Hl.
      unfold n. rewrite <- (length_map_to_list (transaction_embeddings st)).
      unfold scan in *. lia.
  - intros k. rewrite find_similar_result. cbn [fst]. rewrite List.Forall_forall.
    intros x Hx.
    assert (Hx' : In x (sort_by intent_filter.by_score_desc
                          (omap (score_row (encode desc))
                                (scan (transaction_embeddings st))))).
    { rewrite <- (firstn_skipn k). apply in_app_iff. now left. }
    clear Hx. rename Hx' into Hx. apply sort_by_In, scored_id_stored in Hx.
    destruct Hx as [emb Hemb]. apply list_elem_of_In, elem_of_map_to_list in Hemb. eauto.
Qed.

(** The prompt carries no similar-transaction context exactly when no
    stored embedding scores against the cleaned input; the request is
    sent all the same. *)
Theorem no_exemplar_iff_nothing_scores env input :
  intent_filter.prompt_similar_context (request_of env input) = None
  <-> omap (score_row (encode (intent_filter.extract_tags_from_input input).1))
           (scan (transaction_embeddings (intent_filter.db env))) = [].
Proof.
  unfold request_of.
  destruct (intent_filter.extract_tags_from_input input) as [cleaned user_tags].
  cbn [fst intent_filter.prompt_similar_context].
  change 1 with (Z.of_nat 1). rewrite find_similar_result. cbn [fst].
  set (scored := omap _ _).
  destruct (sort_by intent_filter.by_score_desc scored) as [|y ranked] eqn:E.
  - apply sort_by_nil in E. rewrite E. cbn. tauto.
  - cbn. split; [discriminate|]. intros Hs. rewrite Hs in E. discriminate.
Qed.

End RetrievalMore.

Lemma best_match_is_maximal_witness :
  (@intent_filter.find_similar_transactions sample.externals sample.synced_store
     "coffee" 1).1 = [(7, 0%Q)]
  /\ In (7, 0%Q)
        (omap (@score_row sample.externals (@encode sample.externals "coffee"))
              (scan (transaction_embeddings sample.synced_store))).
Proof.
  assert (Hrun : (@intent_filter.find_similar_transactions sample.externals
                    sample.synced_store "coffee" 1).1 = [(7, 0%Q)])
    by (vm_compute; reflexivity).
  split; [exact Hrun|].
  exact (proj1 (@best_match_is_maximal sample.externals sample.synced_store "coffee"
                  7 0%Q Hrun)).
Defined.

Lemma str_of_Z_not_unknown id : PyStr.str_of_Z id <> "unknown".
Proof.
  unfold PyStr.str_of_Z. intros Heq.
  pose proof (NilEmpty.isi (Z.to_int id)) as Hisi. rewrite Heq in Hisi.
  vm_compute in Hisi. discriminate.
Qed.

Lemma dict_get_rows {A V} (key : A -> string) (val : A -> V) (rows : list A) k :
  NoDup (map key rows) ->
  forall a, In a rows -> key a = k ->
  context_loader.dict_get String.eqb k (map (fun a => (key a, val a)) rows) = Some (val a).
Proof.
  induction rows as [|b rows IH]; intros Hnd a Hin Hk; [destruct Hin|].
  cbn in Hnd |- *. apply NoDup_cons in Hnd. destruct Hnd as [Hb Hnd].
  destruct Hin as [<-|Hin].
  - rewrite Hk, String.eqb_refl. reflexivity.
  - destruct (String.eqb (key b) k) eqn:E; [|now apply IH].
    apply String.eqb_eq in E. exfalso. apply Hb. rewrite E, <- Hk.
    apply list_elem_of_In. now apply in_map.
Qed.

Lemma dict_get_rows_none {A V} (key : A -> string) (val : A -> V) (rows : list A) k :
  (forall a, In a rows -> key a <> k) ->
  context_loader.dict_get String.eqb k (map (fun a => (key a, val a)) rows) = None.
Proof.
  induction rows as [|b rows IH]; intros Hk; [reflexivity|].
  cbn. destruct (String.eqb (key b) k) eqn:E.
  - apply String.eqb_eq in E. exfalso. apply (Hk b); [now left | exact E].
  - apply IH. intros a Ha. apply Hk. now right.
Qed.

(** Looking an id up in the account map: the name of the asset account
    with that id, and nothing for any other key. *)
Lemma load_accounts_get st id :
  context_loader.dict_get String.eqb (PyStr.str_of_Z id) (context_loader.load_accounts st)
  = match accounts st !! id with
    | Some row => if context_loader.is_asset row then Some (acc_name row) else None
    | None => None
    end.
Proof.
  rewrite load_accounts_rows.
  set (rows := sort_by _ _).
  assert (Hin : forall e, In e rows <-> accounts st !! e.1 = Some e.2
                                        /\ context_loader.is_asset e.2 = true).
  { intros [i row]. unfold rows. rewrite sort_by_In, List.filter_In, <- list_elem_of_In.
    unfold scan. rewrite elem_of_map_to_list. reflexivity. }
  assert (Hnd : NoDup (map (fun e : Z * account_row => PyStr.str_of_Z e.1) rows)).
  { rewrite <- (map_map fst PyStr.str_of_Z).
    apply NoDup_fmap_2; [intros x y; apply str_of_Z_inj|].
    apply NoDup_map_perm with
      (l' := List.filter (fun entry => context_loader.is_asset entry.2) (scan (accounts st)));
      [apply sort_by_perm|].
    apply NoDup_map_filter. exact (NoDup_fst_map_to_list (accounts st)). }
  destruct (accounts st !! id) as [row|] eqn:Erow;
    [destruct (context_loader.is_asset row) eqn:Easset|].
  - apply (dict_get_rows (fun e : Z * account_row => PyStr.str_of_Z e.1)
             (fun e => acc_name e.2) rows _ Hnd (id, row)); [|reflexivity].
    apply Hin. cbn. auto.
  - apply dict_get_rows_none. intros [i r] He Hk. apply Hin in He. cbn in He, Hk.
    apply str_of_Z_inj in Hk. subst i. destruct He as [He Ha]. congruence.
  - apply dict_get_rows_none. intros [i r] He Hk. apply Hin in He. cbn in He, Hk.
    apply str_of_Z_inj in Hk. subst i. destruct He as [He _]. congruence.
Qed.

Lemma load_accounts_get_unknown st :
  context_loader.dict_get String.eqb "unknown" (context_loader.load_accounts st) = None.
Proof.
  rewrite load_accounts_rows. apply dict_get_rows_none.
  intros [i r] _. apply str_of_Z_not_unknown.
Qed.

Section Names.
Context `{Externals}.

Lemma finalize_names env cleaned user_tags members p :
  intent_filter.finalize env cleaned user_tags (JObj members) = Returned p ->
  intent_filter.pr_source_name p
  = default (Some "")
      (context_loader.dict_get String.eqb
         (PyStr.lower (py_str (Json.get_default "source_id" (JStr "unknown") members)))
         (context_loader.load_accounts (intent_filter.db env)))
  /\ intent_filter.pr_destination_name p
     = default (Some "")
         (context_loader.dict_get String.eqb
            (PyStr.lower (py_str (Json.get_default "destination_id" (JStr "unknown") members)))
            (context_loader.load_accounts (intent_filter.db env))).
Proof.
  unfold intent_filter.finalize.
  destruct (intent_filter.concat_tags _ _) as [all_tags|e]; [|discriminate].
  cbn [mbind outcome_bind].
  destruct (intent_filter.unique_tags all_tags) as [tags|e]; [|discriminate].
  cbn. intros Hp. injection Hp as <-. split; reflexivity.
Qed.

(** The names attached to a proposal.  When the source (destination) id of
    the response prints, lower-cased, as the decimal form of [id], the
    source (destination) name is the name of the asset account [id], and
    the empty string when [id] is no account or an account of another type;
    when the response has no such key, the id is the sentinel and the name
    is empty. *)
Theorem account_names_resolve env cleaned user_tags members p :
  intent_filter.finalize env cleaned user_tags (JObj members) = Returned p ->
  (forall id,
     PyStr.lower (py_str (Json.get_default "source_id" (JStr "unknown") members))
     = PyStr.str_of_Z id ->
     intent_filter.pr_source_name p
     = match accounts (intent_filter.db env) !! id with
       | Some row => if context_loader.is_asset row then acc_name row else Some ""
       | None => Some ""
       end)
  /\ (forall id,
        PyStr.lower (py_str (Json.get_default "destination_id" (JStr "unknown") members))
        = PyStr.str_of_Z id ->
        intent_filter.pr_destination_name p
        = match accounts (intent_filter.db env) !! id with
          | Some row => if context_loader.is_asset row then acc_name row else Some ""
          | None => Some ""
          end)
  /\ (Json.obj_get "source_id" members = None ->
      intent_filter.pr_source_id p = JStr "unknown"
      /\ intent_filter.pr_source_name p = Some "")
  /\ (Json.obj_get "destination_id" members = None ->
      intent_filter.pr_destination_id p = JStr "unknown"
      /\ intent_filter.pr_destination_name p = Some "").
Proof.
  intros Hp. destruct (finalize_names _ _ _ _ _ Hp) as [Hs Hd].
  assert (Hids : intent_filter.pr_source_id p
                 = Json.get_default "source_id" (JStr "unknown") members
                 /\ intent_filter.pr_destination_id p
                    = Json.get_default "destination_id" (JStr "unknown") members).
  { revert Hp. unfold intent_filter.finalize.
    destruct (intent_filter.concat_tags _ _) as [all_tags|e]; [|discriminate].
    cbn [mbind outcome_bind].
    destruct (intent_filter.unique_tags all_tags) as [tags|e]; [|discriminate].
    cbn. intros Hp. injection Hp as <-. split; reflexivity. }
  destruct Hids as [Hsi Hdi].
  split; [|split; [|split]].
  - intros id Hid. rewrite Hs, Hid, load_accounts_get.
    destruct (accounts (intent_filter.db env) !! id) as [row|]; [|reflexivity].
    now destruct (context_loader.is_asset row).
  - intros id Hid. rewrite Hd, Hid, load_accounts_get.
    destruct (accounts (intent_filter.db env) !! id) as [row|]; [|reflexivity].
    now destruct (context_loader.is_asset row).
  - intros Hnone. rewrite Hsi, Hs. unfold Json.get_default. rewrite Hnone.
    split; [reflexivity|]. cbn [py_str]. change (PyStr.lower "unknown") with "unknown".
    now rewrite load_accounts_get_unknown.
  - intros Hnone. rewrite Hdi, Hd. unfold Json.get_default. rewrite Hnone.
    split; [reflexivity|]. cbn [py_str]. change (PyStr.lower "unknown") with "unknown".
    now rewrite load_accounts_get_unknown.
Qed.

(** A response that decodes to something other than an object makes
    [AttributeError] escape the call; an object whose tags are not a list,
    or are a list holding a list or an object, makes [TypeError] escape.
    In neither case does the call return "no proposal". *)
Theorem wrong_shape_response_raises env input content data :
  intent_filter.chat_completion env (request_of env input) = Some content ->
  json_loads (PyStr.strip content) = Some data ->
  match data with
  | JObj members =>
      match Json.get_default "tags" (JArr []) members with
      | JArr M =>
          forallb Json.hashable M = false ->
          (intent_filter.determine_intent env input).1 = Raised TypeError
      | _ => (intent_filter.determine_intent env input).1 = Raised TypeError
      end
  | _ => (intent_filter.determine_intent env input).1 = Raised AttributeError
  end.
Proof.
  intros Hc Hj. rewrite determine_intent_steps. cbn [fst]. rewrite Hc, Hj.
  destruct data as [| | | | |members]; try reflexivity.
  unfold intent_filter.finalize.
  destruct (Json.get_default "tags" (JArr []) members) as [| | | |M|]; try reflexivity.
  intros Hh. cbn [intent_filter.concat_tags mbind outcome_bind].
  unfold intent_filter.unique_tags.
  rewrite forallb_app, forallb_hashable_strings, Hh. reflexivity.
Qed.

End Names.

Lemma account_names_resolve_witness :
  exists p,
    @intent_filter.finalize sample.externals sample.env "pay rent" []
      (JObj [("source_id", JInt 12); ("destination_id", JStr "16")]) = Returned p
    /\ intent_filter.pr_source_name p = Some "Wallet"
    /\ intent_filter.pr_destination_name p = Some "".
Proof.
  assert (Hrun : exists p,
            @intent_filter.finalize sample.externals sample.env "pay rent" []
              (JObj [("source_id", JInt 12); ("destination_id", JStr "16")]) = Returned p)
    by (vm_compute; eauto).
  destruct Hrun as (p & Hp). exists p. split; [exact Hp|].
  destruct (@account_names_resolve sample.externals sample.env "pay rent" []
              [("source_id", JInt 12); ("destination_id", JStr "16")] p Hp)
    as (Hs & Hd & _).
  split; [exact (Hs 12 eq_refl) | exact (Hd 16 eq_refl)].
Defined.

Lemma wrong_shape_response_raises_witness :
  intent_filter.chat_completion sample.env_empty_list
    (@request_of sample.externals sample.env_empty_list "pay rent") = Some "[]"
  /\ @json_loads sample.externals (PyStr.strip "[]") = Some (JArr [])
  /\ (@intent_filter.determine_intent sample.externals sample.env_empty_list "pay rent").1
     = Raised AttributeError.
Proof.
  split; [reflexivity|]. split; [reflexivity|].
  exact (@wrong_shape_response_raises sample.externals sample.env_empty_list "pay rent"
           "[]" (JArr []) eq_refl eq_refl).
Defined.

(** * Further properties of the submitter and the account picker *)

(** The account picker's list holds every mirrored account once, whatever
    its type, so also the expense and revenue accounts that the prompt
    context leaves out. *)
Theorem fetch_accounts_lists_every_type (st : store) :
  (forall id name,
     In (id, name) (main.fetch_accounts st)
     <-> exists row, accounts st !! id = Some row /\ name = acc_name row)
  /\ NoDup (map fst (main.fetch_accounts st))
  /\ length (main.fetch_accounts st) = size (accounts st).
Proof.
  unfold main.fetch_accounts. split; [|split].
  - intros id name. rewrite in_map_iff. split.
    + intros ([id' row] & Heq & Hin). apply sort_by_In in Hin.
      apply list_elem_of_In, elem_of_map_to_list in Hin. cbn [fst snd] in Heq.
      injection Heq as <- <-. eauto.
    + intros (row & Hrow & ->). exists (id, row). split; [reflexivity|].
      apply sort_by_In, list_elem_of_In. unfold scan. now apply elem_of_map_to_list.
  - rewrite map_map. cbn [fst].
    apply NoDup_map_perm with (l' := scan (accounts st)); [apply sort_by_perm|].
    exact (NoDup_fst_map_to_list (accounts st)).
  - rewrite length_map, (Permutation_length (sort_by_perm _ _)).
    unfold scan. apply length_map_to_list.
Qed.

Section SubmissionMore.
Context `{Externals}.

Lemma resolved_id_cases v :
  (v = JStr "unknown" /\ main.resolved_id v = Returned None)
  \/ (v <> JStr "unknown"
      /\ main.resolved_id v = (n ← main.py_int v; mret (Some n))).
Proof.
  destruct v as [|b|n|s|items|members];
    try (right; split; [discriminate | reflexivity]).
  destruct (String.eqb_spec s "unknown") as [->|Hne]; [left; split; reflexivity|].
  right. split; [congruence|].
  repeat (destruct s as [|[[] [] [] [] [] [] [] []] s]; try reflexivity).
  congruence.
Qed.

Lemma resolved_id_none v n :
  main.resolved_id v = Returned n -> (n = None <-> v = JStr "unknown").
Proof.
  destruct (resolved_id_cases v) as [[-> Hr]|[Hne Hr]]; rewrite Hr.
  - intros Hn. injection Hn as <-. tauto.
  - destruct (main.py_int v) as [m|e]; cbn; [|discriminate].
    intros Hn. injection Hn as <-. split; [discriminate | tauto].
Qed.

(** The transaction sent carries a source, destination or bill id exactly
    when the proposal's value is not the sentinel ["unknown"], carries
    tags exactly when the proposal has some, and always carries the type,
    date, amount, description, currency and category of the proposal; one
    request is sent for it. *)
Theorem unresolved_ids_are_left_out api p tx :
  main.build_transaction p = Returned tx ->
  (main.tx_source_id tx = None <-> intent_filter.pr_source_id p = JStr "unknown")
  /\ (main.tx_destination_id tx = None
      <-> intent_filter.pr_destination_id p = JStr "unknown")
  /\ (main.tx_bill_id tx = None <-> intent_filter.pr_bill_id p = JStr "unknown")
  /\ (main.tx_tags tx = None <-> intent_filter.pr_tags p = [])
  /\ main.tx_type tx = intent_filter.pr_type p
  /\ main.tx_date tx = intent_filter.pr_date p
  /\ main.tx_amount tx = intent_filter.pr_amount p
  /\ main.tx_description tx = intent_filter.pr_description p
  /\ main.tx_currency_code tx = intent_filter.pr_currency_code p
  /\ main.tx_category_name tx = intent_filter.pr_category_name p
  /\ (main.post_transaction api p).2 = [main.PostRequest [tx]].
Proof.
  intros Hb. unfold main.post_transaction. rewrite Hb. cbn [snd].
  revert Hb. unfold main.build_transaction.
  destruct (main.resolved_id (intent_filter.pr_source_id p)) as [s|e] eqn:Es;
    [|discriminate].
  destruct (main.resolved_id (intent_filter.pr_destination_id p)) as [d|e] eqn:Ed;
    [|discriminate].
  destruct (main.resolved_id (intent_filter.pr_bill_id p)) as [b|e] eqn:Eb;
    [|discriminate].
  cbn. intros Htx. injection Htx as <-. cbn.
  split; [now apply resolved_id_none|]. split; [now apply resolved_id_none|].
  split; [now apply resolved_id_none|].
  split; [destruct (intent_filter.pr_tags p); split; congruence|].
  repeat split; reflexivity.
Qed.

(** A null id stops the submission before the ledger is contacted: when
    the source, destination or bill id of the proposal is [None], an
    exception escapes and no request is sent. *)
Theorem null_id_stops_submission api p :
  intent_filter.pr_source_id p = JNull
  \/ intent_filter.pr_destination_id p = JNull
  \/ intent_filter.pr_bill_id p = JNull ->
  exists e, main.post_transaction api p = (Raised e, []).
Proof.
  intros Hnull. unfold main.post_transaction, main.build_transaction.
  destruct (main.resolved_id (intent_filter.pr_source_id p)) as [s|e] eqn:Es;
    [|exists e; reflexivity].
  destruct (main.resolved_id (intent_filter.pr_destination_id p)) as [d|e] eqn:Ed;
    [|exists e; reflexivity].
  destruct (main.resolved_id (intent_filter.pr_bill_id p)) as [b|e] eqn:Eb;
    [|exists e; reflexivity].
  exfalso. destruct Hnull as [Hn|[Hn|Hn]].
  - rewrite Hn in Es. discriminate.
  - rewrite Hn in Ed. discriminate.
  - rewrite Hn in Eb. discriminate.
Qed.

(** Failures are reported once and as received: when the ledger answers
    an object with an [errors] key the call returns that object unchanged,
    and when it answers nothing or an empty object the call returns
    [False]; in both cases a single request was sent. *)
Theorem failures_are_reported_once api p tx :
  main.build_transaction p = Returned tx ->
  (forall members,
     api [tx] = Some (JObj members) -> Json.has_key "errors" members = true ->
     main.post_transaction api p
     = (Returned (main.ErrorResponse (JObj members)), [main.PostRequest [tx]]))
  /\ (api [tx] = None \/ api [tx] = Some (JObj []) ->
      main.post_transaction api p = (Returned main.PostedFalse, [main.PostRequest [tx]])).
Proof.
  intros Hb. unfold main.post_transaction. rewrite Hb. split.
  - intros members Hr He. rewrite Hr. now rewrite errors_are_returned_verbatim.
  - intros [Hr|Hr]; now rewrite Hr.
Qed.

End SubmissionMore.

Lemma unresolved_ids_are_left_out_witness :
  @main.build_transaction sample.externals sample.proposal = Returned sample.posted
  /\ main.tx_destination_id sample.posted = None
  /\ (@main.post_transaction sample.externals (fun _ => None) sample.proposal).2
     = [main.PostRequest [sample.posted]].
Proof.
  split; [reflexivity|].
  destruct (@unresolved_ids_are_left_out sample.externals (fun _ => None)
              sample.proposal sample.posted eq_refl)
    as (_ & Hd & _ & _ & _ & _ & _ & _ & _ & _ & Hsent).
  split; [now apply Hd | exact Hsent].
Defined.

Lemma failures_are_reported_once_witness :
  @main.build_transaction sample.externals sample.proposal = Returned sample.posted
  /\ @main.post_transaction sample.externals (fun _ => None) sample.proposal
     = (Returned main.PostedFalse, [main.PostRequest [sample.posted]]).
Proof.
  split; [reflexivity|].
  exact (proj2 (@failures_are_reported_once sample.externals (fun _ => None)
                  sample.proposal sample.posted eq_refl) (or_introl eq_refl)).
Defined.

Lemma null_id_stops_submission_witness :
  intent_filter.pr_bill_id sample.proposal_null_bill = JNull
  /\ exists e,
       @main.post_transaction sample.externals (fun _ => Some sample.unauthenticated)
         sample.proposal_null_bill = (Raised e, []).
Proof.
  split; [reflexivity|].
  exact (@null_id_stops_submission sample.externals (fun _ => Some sample.unauthenticated)
           sample.proposal_null_bill (or_intror (or_intror eq_refl))).
Defined.

(** * Further properties of the earlier submitter *)

Lemma py_eq_str_r v s : Json.py_eq v (JStr s) = true <-> v = JStr s.
Proof.
  destruct v; cbn; try (split; discriminate).
  rewrite String.eqb_eq. split; congruence.
Qed.

(** [process] reads seven keys of the proposal unconditionally: when one
    of them is absent, [KeyError] escapes and nothing is sent. *)
Theorem process_needs_every_key api today proposal key :
  In key ["intent"; "amount"; "description"; "source_id"; "destination_id";
          "currency"; "bill_id"] ->
  Json.obj_get key proposal = None ->
  final_prompt.process api today proposal = (Raised KeyError, []).
Proof.
  intros Hkey Hnone. unfold final_prompt.process, final_prompt.build_payload,
    final_prompt.required.
  destruct (Json.obj_get "intent" proposal) eqn:E1; [|reflexivity].
  destruct (Json.obj_get "amount" proposal) eqn:E2; [|reflexivity].
  destruct (Json.obj_get "description" proposal) eqn:E3; [|reflexivity].
  destruct (Json.obj_get "source_id" proposal) eqn:E4; [|reflexivity].
  destruct (Json.obj_get "destination_id" proposal) eqn:E5; [|reflexivity].
  destruct (Json.obj_get "currency" proposal) eqn:E6; [|reflexivity].
  destruct (Json.obj_get "bill_id" proposal) eqn:E7; [|reflexivity].
  exfalso. cbn in Hkey.
  destruct Hkey as [<-|[<-|[<-|[<-|[<-|[<-|[<-|[]]]]]]]]; congruence.
Qed.

Lemma process_needs_every_key_witness :
  Json.obj_get "bill_id" sample.test_proposal = None
  /\ final_prompt.process (fun _ => Returned None) (intent_filter.today sample.env)
       sample.test_proposal = (Raised KeyError, []).
Proof.
  split; [reflexivity|].
  apply (process_needs_every_key _ _ _ "bill_id"); [|reflexivity].
  cbn. tauto.
Defined.

(** When [process] does post, it posts once, a transaction dated today
    whose currency code is JPY exactly when the proposal's currency is the
    string [yen], and USD otherwise. *)
Theorem process_currency_and_date api today proposal tx :
  final_prompt.build_payload today proposal = Returned tx ->
  (final_prompt.process api today proposal).2 = [final_prompt.PostRequest [tx]]
  /\ final_prompt.fp_date tx = intent_filter.isoformat today
  /\ (final_prompt.fp_currency_code tx = "JPY"
      <-> Json.obj_get "currency" proposal = Some (JStr "yen"))
  /\ (final_prompt.fp_currency_code tx = "JPY" \/ final_prompt.fp_currency_code tx = "USD").
Proof.
  intros Hb. unfold final_prompt.process. rewrite Hb. cbn [snd].
  split; [reflexivity|]. revert Hb.
  unfold final_prompt.build_payload, final_prompt.required.
  destruct (Json.obj_get "intent" proposal) eqn:E1; [|discriminate].
  destruct (Json.obj_get "amount" proposal) eqn:E2; [|discriminate].
  destruct (Json.obj_get "description" proposal) eqn:E3; [|discriminate].
  destruct (Json.obj_get "source_id" proposal) eqn:E4; [|discriminate].
  destruct (Json.obj_get "destination_id" proposal) eqn:E5; [|discriminate].
  destruct (Json.obj_get "currency" proposal) as [currency|] eqn:E6; [|discriminate].
  destruct (Json.obj_get "bill_id" proposal) eqn:E7; [|discriminate].
  cbn. intros Htx. injection Htx as <-. cbn.
  split; [reflexivity|].
  destruct (Json.py_eq currency (JStr "yen")) eqn:Ey.
  - apply py_eq_str_r in Ey. subst currency. split; [tauto | now left].
  - split; [|now right]. split; [discriminate|].
    intros Hc. injection Hc as ->. discriminate.
Qed.

Lemma process_currency_and_date_witness :
  exists tx,
    final_prompt.build_payload (intent_filter.today sample.env)
      (("bill_id", JStr "unknown") :: sample.test_proposal) = Returned tx
    /\ final_prompt.fp_currency_code tx = "JPY"
    /\ final_prompt.fp_date tx = "2025-02-03".
Proof.
  assert (Hb : exists tx,
            final_prompt.build_payload (intent_filter.today sample.env)
              (("bill_id", JStr "unknown") :: sample.test_proposal) = Returned tx)
    by (vm_compute; eauto).
  destruct Hb as (tx & Hb). exists tx. split; [exact Hb|].
  destruct (process_currency_and_date (fun _ => Returned None) _ _ tx Hb)
    as (_ & Hd & Hc & _).
  split; [now apply Hc | exact Hd].
Defined.

(** * Further properties of the ledger call *)

Lemma rstrip_char_snoc ch s :
  PyStr.rstrip_char ch (s +:+ String ch "") = PyStr.rstrip_char ch s.
Proof.
  induction s as [|c s IH]; cbn.
  - now rewrite Ascii.eqb_refl.
  - now rewrite IH.
Qed.

Lemma lstrip_char_cons ch s : PyStr.lstrip_char ch (String ch s) = PyStr.lstrip_char ch s.
Proof. cbn. now rewrite Ascii.eqb_refl. Qed.

(** The call is insensitive to a slash at the end of the base URL and to
    one at the start of the endpoint: the same URL is requested, and the
    same result returned. *)
Theorem api_call_ignores_joint_slashes `{Externals} json_dumps run
        base token endpoint method data :
  firefly_sync.api_url (base +:+ "/") ("/" +:+ endpoint)
  = firefly_sync.api_url base endpoint
  /\ firefly_sync.call_firefly_api_curl json_dumps run (base +:+ "/") token
       ("/" +:+ endpoint) method data
     = firefly_sync.call_firefly_api_curl json_dumps run base token endpoint method data.
Proof.
  assert (Hurl : firefly_sync.api_url (base +:+ "/") ("/" +:+ endpoint)
                 = firefly_sync.api_url base endpoint).
  { unfold firefly_sync.api_url.
    rewrite rstrip_char_snoc.
    change ("/" +:+ endpoint) with (String "/" endpoint). now rewrite lstrip_char_cons. }
  split; [exact Hurl|].
  unfold firefly_sync.call_firefly_api_curl, firefly_sync.curl_command. now rewrite Hurl.
Qed.

(** * The retrieval test script *)

(** No test of [run_tests] can pass: the id of the top match is an
    integer, the expected id a string, and the two are never equal. *)
Theorem run_tests_never_passes `{Externals} st tests :
  Forall (fun v => v <> similiarity_test.Pass) (similiarity_test.run_tests st tests).
Proof.
  unfold similiarity_test.run_tests. rewrite List.Forall_forall. intros v Hv.
  apply in_map_iff in Hv. destruct Hv as (test & <- & _).
  unfold similiarity_test.run_test.
  destruct (intent_filter.find_similar_transactions st _ 3).1 as [|[tid sim] rest];
    cbn; discriminate.
Qed.

(** * The account cache built when the resolver is loaded *)

Lemma dict_set_In {V} k (v : V) d x :
  In x (context_loader.dict_set String.eqb k v d) -> x = (k, v) \/ In x d.
Proof.
  induction d as [|[k' v'] d IH]; cbn; [intros [<-|[]]; now left|].
  destruct (String.eqb k' k) eqn:E; cbn.
  - apply String.eqb_eq in E. subst k'. intros [<-|Hx]; [now left | right; now right].
  - intros [<-|Hx]; [right; now left|]. destruct (IH Hx); [now left | right; now right].
Qed.

Lemma dict_get_set {V} k (v : V) d k' :
  is_Some (context_loader.dict_get String.eqb k' (context_loader.dict_set String.eqb k v d))
  <-> k' = k \/ is_Some (context_loader.dict_get String.eqb k' d).
Proof.
  induction d as [|[k0 v0] d IH]; cbn.
  - destruct (String.eqb_spec k k') as [->|Hne].
    + split; [now left | eauto].
    + split; [intros Hn; now apply is_Some_None in Hn|].
      intros [->|Hn]; [congruence | now apply is_Some_None in Hn].
  - destruct (String.eqb_spec k0 k) as [->|Hne]; cbn.
    + destruct (String.eqb_spec k k') as [->|Hne'].
      * split; [now left | eauto].
      * split; [now right|]. intros [->|Hs]; [congruence | exact Hs].
    + destruct (String.eqb_spec k0 k') as [->|Hne']; [split; eauto|]. exact IH.
Qed.

Lemma cache_fold_raised (rows : list (Z * account_row)) e :
  fold_left
    (fun cache entry =>
       account_cache ← cache;
       match acc_name entry.2 with
       | Some name =>
           mret (context_loader.dict_set String.eqb (PyStr.lower name)
                   (entry.1, acc_type entry.2) account_cache)
       | None => Raised AttributeError
       end)
    rows (Raised e) = Raised e.
Proof. induction rows as [|row rows IH]; cbn; [reflexivity | exact IH]. Qed.

Lemma cache_fold (rows : list (Z * account_row)) : forall acc,
  let result :=
    fold_left
      (fun cache entry =>
         account_cache ← cache;
         match acc_name entry.2 with
         | Some name =>
             mret (context_loader.dict_set String.eqb (PyStr.lower name)
                     (entry.1, acc_type entry.2) account_cache)
         | None => Raised AttributeError
         end)
      rows (Returned acc) in
  (List.Exists (fun entry => acc_name entry.2 = None) rows -> result = Raised AttributeError)
  /\ (Forall (fun entry => acc_name entry.2 <> None) rows ->
      exists cache,
        result = Returned cache
        /\ (forall x, In x cache ->
              In x acc
              \/ exists entry name, In entry rows /\ acc_name entry.2 = Some name
                                    /\ x = (PyStr.lower name, (entry.1, acc_type entry.2)))
        /\ (forall k, is_Some (context_loader.dict_get String.eqb k acc) ->
                      is_Some (context_loader.dict_get String.eqb k cache))
        /\ (forall entry name, In entry rows -> acc_name entry.2 = Some name ->
              is_Some (context_loader.dict_get String.eqb (PyStr.lower name) cache))).
Proof.
  induction rows as [|row rows IH]; intros acc; cbn.
  - split; [intros Hex; inversion Hex|]. intros _. exists acc.
    split; [reflexivity|]. split; [tauto|]. split; [tauto|]. intros entry name [].
  - destruct (acc_name row.2) as [name|] eqn:En.
    + cbn [mret outcome_ret].
      destruct (IH (context_loader.dict_set String.eqb (PyStr.lower name)
                      (row.1, acc_type row.2) acc)) as [IHr IHf].
      split.
      * intros Hex. apply IHr. apply List.Exists_cons in Hex.
        destruct Hex as [Hex|Hex]; [congruence | exact Hex].
      * intros Hall. apply Forall_cons in Hall. destruct Hall as [_ Hall].
        destruct (IHf Hall) as (cache & Hres & Hin & Hkeep & Hget).
        exists cache. split; [exact Hres|]. split; [|split].
        -- intros x Hx. destruct (Hin x Hx) as [Hacc|(entry & n & He & Hn & ->)].
           ++ apply dict_set_In in Hacc. destruct Hacc as [->|Hacc]; [|tauto].
              right. exists row, name. tauto.
           ++ right. exists entry, n. tauto.
        -- intros k Hk. apply Hkeep, dict_get_set. tauto.
        -- intros entry n [<-|He] Hn; [|now apply Hget with entry].
           apply Hkeep, dict_get_set. left. congruence.
    + rewrite cache_fold_raised. split; [reflexivity|].
      intros Hall. apply Forall_cons in Hall. destruct Hall as [Hrow _]. congruence.
Qed.

(** Loading the resolver reads every account into a cache keyed by the
    lower-cased name.  An account whose name is [NULL] makes
    [AttributeError] escape; otherwise every key is a lower-cased account
    name bound to the id and type of an account of that name, and every
    account is found under its lower-cased name. *)
Theorem account_cache_loads (st : store) :
  ((exists id row, accounts st !! id = Some row /\ acc_name row = None) ->
   intent_filter.load_account_cache st = Raised AttributeError)
  /\ ((forall id row, accounts st !! id = Some row -> acc_name row <> None) ->
      exists cache,
        intent_filter.load_account_cache st = Returned cache
        /\ (forall k id ty, In (k, (id, ty)) cache ->
              exists row name, accounts st !! id = Some row /\ acc_name row = Some name
                               /\ PyStr.lower name = k /\ acc_type row = ty)
        /\ (forall id row name, accounts st !! id = Some row -> acc_name row = Some name ->
              is_Some (context_loader.dict_get String.eqb (PyStr.lower name) cache))).
Proof.
  unfold intent_filter.load_account_cache.
  destruct (cache_fold (scan (accounts st)) []) as [Hraise Hload]. split.
  - intros (id & row & Hrow & Hname). apply Hraise. apply List.Exists_exists.
    exists (id, row). split; [|exact Hname].
    apply list_elem_of_In. unfold scan. now apply elem_of_map_to_list.
  - intros Hnamed.
    destruct Hload as (cache & Hres & Hin & _ & Hget).
    { rewrite List.Forall_forall. intros [id row] He.
      apply list_elem_of_In, elem_of_map_to_list in He. now apply Hnamed with id. }
    exists cache. split; [exact Hres|]. split.
    + intros k id ty Hx. destruct (Hin _ Hx) as [[]|([i row] & name & He & Hn & Heq)].
      apply list_elem_of_In, elem_of_map_to_list in He. cbn [fst snd] in Heq, Hn.
      injection Heq as -> -> ->. eauto 6.
    + intros id row name Hrow Hn. apply (Hget (id, row) name); [|exact Hn].
      apply list_elem_of_In. unfold scan. now apply elem_of_map_to_list.
Qed.

Lemma account_cache_loads_witness :
  (exists id row, accounts sample.store_with_unnamed_account !! id = Some row
                  /\ acc_name row = None)
  /\ intent_filter.load_account_cache sample.store_with_unnamed_account
     = Raised AttributeError.
Proof.
  assert (Hex : exists id row,
            accounts sample.store_with_unnamed_account !! id = Some row
            /\ acc_name row = None).
  { eexists 12, _. split; reflexivity. }
  split; [exact Hex|].
  exact (proj1 (account_cache_loads sample.store_with_unnamed_account) Hex).
Defined.

(** * From the sync to the resolver *)

Section EndToEnd.
Context `{Externals}.

Lemma row_scored_or_failed embedding (rows : list (Z * list Byte.byte)) tid emb :
  In (tid, emb) rows ->
  (exists s, In (tid, s) (omap (score_row embedding) rows))
  \/ In (tid, emb) (List.filter (fails_to_score embedding) rows).
Proof.
  intros Hin. destruct (score_row embedding (tid, emb)) as [[tid' s]|] eqn:Es.
  - left. exists s. apply list_elem_of_In, list_elem_of_omap.
    exists (tid, emb). split; [now apply list_elem_of_In|].
    rewrite Es. f_equal. f_equal. unfold score_row in Es. cbn [fst snd] in Es.
    destruct (frombuffer emb); [|discriminate].
    destruct (cosine_similarity embedding v); [|discriminate]. congruence.
  - right. apply List.filter_In. split; [exact Hin|].
    unfold fails_to_score. now rewrite Es.
Qed.

(** After a run every transaction of the store takes part in a search:
    asked for as many results as there are embeddings, the search returns
    it with a score or logs an error for it. *)
Theorem synced_transactions_are_searchable r st desc tid :
  let s := firefly_sync.main r st in
  let n := size (transaction_embeddings s) in
  is_Some (transactions s !! tid) ->
  (exists score,
     In (tid, score) (intent_filter.find_similar_transactions s desc (Z.of_nat n)).1)
  \/ In (intent_filter.EmbeddingError tid)
        (intent_filter.find_similar_transactions s desc (Z.of_nat n)).2.
Proof.
  intros s n Htid.
  assert (Hemb : is_Some (transaction_embeddings s !! tid)).
  { now apply main_embedding_present. }
  destruct Hemb as [emb Hemb].
  assert (Hrow : In (tid, emb) (scan (transaction_embeddings s))).
  { apply list_elem_of_In. unfold scan. now apply elem_of_map_to_list. }
  rewrite find_similar_result. cbn [fst snd].
  destruct (row_scored_or_failed (encode desc) _ tid emb Hrow) as [[score Hs]|Hf].
  - left. exists score. rewrite firstn_all2; [now apply sort_by_In|].
    rewrite (Permutation_length (sort_by_perm _ _)).
    pose proof (scored_or_failed (encode desc) (scan (transaction_embeddings s))) as Hl.
    unfold n. rewrite <- (length_map_to_list (transaction_embeddings s)).
    unfold scan in *. lia.
  - right. apply in_map_iff. exists (tid, emb). split; [reflexivity | exact Hf].
Qed.

(** A served asset account is resolvable right after the run: the account
    map of the resolver binds its id, printed in decimal, to the name the
    ledger sent (the empty string when it sent none), provided no record
    served later carries the same id. *)
Theorem synced_asset_account_resolves r st before item after :
  served (firefly_sync.remote_accounts r) = before ++ item :: after ->
  firefly_sync.ra_type item = firefly_sync.Value "asset" ->
  (forall other, In other after -> firefly_sync.ra_id other <> firefly_sync.ra_id item) ->
  context_loader.dict_get String.eqb (PyStr.str_of_Z (firefly_sync.ra_id item))
    (context_loader.load_accounts (firefly_sync.main r st))
  = Some (firefly_sync.attr_get (firefly_sync.ra_name item) "").
Proof.
  intros Hserved Htype Hlast. rewrite load_accounts_get.
  destruct (main_tables r st) as (-> & _).
  rewrite Hserved, List.filter_app. cbn [List.filter].
  assert (Hm : mirrored item = true) by (unfold mirrored; now rewrite Htype).
  rewrite Hm, upsert_all_app. cbn [upsert_all fold_left].
  fold (upsert_all firefly_sync.ra_id account_row_of (List.filter mirrored after)
          (<[firefly_sync.ra_id item := account_row_of item]>
             (upsert_all firefly_sync.ra_id account_row_of (List.filter mirrored before)
                (accounts st)))).
  rewrite upsert_all_notin.
  - rewrite lookup_insert_eq. unfold context_loader.is_asset, account_row_of. cbn.
    now rewrite Htype.
  - intros Hin. apply in_map_iff in Hin. destruct Hin as (other & Hid & Hother).
    apply List.filter_In in Hother. destruct Hother as [Hother _].
    now apply (Hlast other Hother).
Qed.

End EndToEnd.

Lemma synced_transactions_are_searchable_witness :
  is_Some (transactions sample.synced_store !! 7)
  /\ ((exists score,
         In (7, score)
            (@intent_filter.find_similar_transactions sample.externals
               sample.synced_store "coffee"
               (Z.of_nat (size (transaction_embeddings sample.synced_store)))).1)
      \/ In (intent_filter.EmbeddingError 7)
            (@intent_filter.find_similar_transactions sample.externals
               sample.synced_store "coffee"
               (Z.of_nat (size (transaction_embeddings sample.synced_store)))).2).
Proof.
  assert (Hin : is_Some (transactions sample.synced_store !! 7)).
  { exists sample.coffee. reflexivity. }
  split; [exact Hin|].
  exact (@synced_transactions_are_searchable sample.externals sample.ledger empty_store
           "coffee" 7 Hin).
Defined.

Lemma synced_asset_account_resolves_witness :
  context_loader.dict_get String.eqb "12"
    (context_loader.load_accounts sample.synced_store) = Some (Some "Wallet").
Proof.
  apply (@synced_asset_account_resolves sample.externals sample.ledger empty_store []
           {| firefly_sync.ra_id := 12; firefly_sync.ra_name := firefly_sync.Value "Wallet";
              firefly_sync.ra_type := firefly_sync.Value "asset";
              firefly_sync.ra_currency_code := firefly_sync.Value "JPY";
              firefly_sync.ra_updated_at := firefly_sync.Value "2025-02-01T09:00:00+09:00" |}
           [{| firefly_sync.ra_id := 16; firefly_sync.ra_name := firefly_sync.Value "Cafe";
               firefly_sync.ra_type := firefly_sync.Value "expense";
               firefly_sync.ra_currency_code := firefly_sync.Value "JPY";
               firefly_sync.ra_updated_at := firefly_sync.Value "2025-02-01T09:00:00+09:00" |}]);
    [reflexivity | reflexivity |].
  intros other [<-|[]]. discriminate.
Defined.
